(** * weight_uncertainty/util/model.py: graph construction of the Bayesian classifier

    The Python module builds a TensorFlow graph once (the constructor of
    [Model] and the helper [ramp_and_clip]) and a session later evaluates the
    tensors of that graph.  The development follows this split:

    - a tensor is a function of the state of the running session ([tensor]);
    - the constructor is a program in a state-and-exception monad [M] over the
      graph under construction ([graph]: global-step variable, collections,
      summaries);
    - floating-point numbers (Python floats, float32 tensors) are idealised as
      real numbers; Python integers are [Z] and enter tensors through [IZR].

    The layer library ([util_layers]), [make_train_op] and the configuration
    module are not part of the sources read here; what the constructor needs
    of them is the interface [Backend] and the record [config] below.

    The exceptions of the Python code itself are modelled (the truth test of
    a tensor, a division by zero, an index out of range); TensorFlow is
    taken to accept the graph it is given, so the errors it raises on
    ill-shaped operands are outside the model, as are the two [print] calls. *)

From Stdlib Require Import Reals Lra Lia String ZArith Bool List.
Import ListNotations.
Local Open Scope string_scope.
Local Open Scope list_scope.
Local Open Scope R_scope.

(** ** Python exceptions and results *)

Inductive exception := Exception (cls : string).

Definition ZeroDivisionError := Exception "ZeroDivisionError".
Definition TypeError := Exception "TypeError".
Definition ValueError := Exception "ValueError".
Definition IndexError := Exception "IndexError".

Inductive result (A : Type) :=
| Ok (a : A)
| Raise (e : exception).
Arguments Ok {A} a.
Arguments Raise {A} e.

(** ** Sessions and tensors *)

(** What a tensor can depend on when the graph is run. *)
Record session := {
  sess_global_step : Z;            (* the global-step counter *)
  sess_input : list (list R);      (* feed of 'input', one flattened sample per row *)
  sess_target : list Z;            (* feed of 'target' *)
  sess_var : string -> list R;     (* value of each variable, flattened *)
  sess_noise : string -> list R    (* noise drawn during this run *)
}.

Definition tensor (A : Type) := session -> A.

(** A float tensor whose first axis is the batch axis: static shape
    ([None] for an unknown dimension) and one flattened row per sample. *)
Record batch_tensor := {
  bt_shape : list (option nat);
  bt_rows : tensor (list (list R))
}.

(** The tensors that are put in collections and summaries. *)
Inductive any_tensor :=
| Scalar (t : tensor R)
| Flat (t : tensor (list R))
| Batch (t : batch_tensor)
| Labels (t : tensor (list Z)).

Inductive summary :=
| summary_scalar (name : string) (t : tensor R) (family : option string)
| summary_histogram (name : string) (t : any_tensor) (family : option string).

(** ** The graph under construction *)

Record graph := {
  has_global_step : bool;                     (* does the global-step variable exist *)
  coll_all_sigma : list (tensor (list R));    (* collection 'all_sigma' *)
  coll_random_mean : list (tensor (list R));  (* collection 'random_mean' *)
  coll_restore_vars : list any_tensor;        (* collection 'restore_vars' *)
  summaries : list summary;                   (* the summaries recorded so far *)
  trainable : list string                     (* names of the trainable variables *)
}.

Definition empty_graph : graph :=
  {| has_global_step := false; coll_all_sigma := []; coll_random_mean := [];
     coll_restore_vars := []; summaries := []; trainable := [] |}.

(** ** The construction monad: graph state and Python exceptions *)

Definition M (A : Type) := graph -> result A * graph.

Definition ret {A} (a : A) : M A := fun g => (Ok a, g).

Definition raise {A} (e : exception) : M A := fun g => (Raise e, g).

Definition bind {A B} (c : M A) (k : A -> M B) : M B :=
  fun g => match c g with
           | (Ok a, g') => k a g'
           | (Raise e, g') => (Raise e, g')
           end.

Definition lift {A} (r : result A) : M A := fun g => (r, g).

Declare Scope construct_scope.
Delimit Scope construct_scope with construct.
Notation "x <- c ;; k" := (bind c (fun x => k))
  (at level 61, c at next level, right associativity) : construct_scope.
Notation "' pat <- c ;; k" :=
  (bind c (fun x => match x with pat => k end))
  (at level 61, pat pattern, c at next level, right associativity)
  : construct_scope.
Notation "c ;;; k" := (bind c (fun _ => k))
  (at level 61, right associativity) : construct_scope.
Local Open Scope construct_scope.

(** ** Python values that reach [ramp_and_clip] as [global_step] *)

Inductive pyvalue :=
| PyNone
| PyInt (z : Z)
| PyFloat (r : R)
| PyTensor (t : tensor Z)
| PyVariable (t : tensor Z).

(** Python's truth test ([if not global_step]).  A graph tensor
    ([tf.Tensor]) refuses to be used as a Python bool; a variable
    ([tf.Variable], such as the global step) has no truth method of its own
    and is true like any other Python object. *)
Definition truth (v : pyvalue) : result bool :=
  match v with
  | PyNone => Ok false
  | PyInt z => Ok (negb (z =? 0)%Z)
  | PyFloat r => Ok (if Req_EM_T r 0 then false else true)
  | PyTensor _ => Raise TypeError
  | PyVariable _ => Ok true
  end.

(** Python's [a / b] on numbers. *)
Definition py_div (a b : R) : result R :=
  if Req_EM_T b 0 then Raise ZeroDivisionError else Ok (a / b).

(** ** The TensorFlow operations used by the module *)

Definition tf_get_or_create_global_step : M pyvalue :=
  fun g =>
    (Ok (PyVariable sess_global_step),
     {| has_global_step := true; coll_all_sigma := coll_all_sigma g;
        coll_random_mean := coll_random_mean g;
        coll_restore_vars := coll_restore_vars g;
        summaries := summaries g; trainable := trainable g |}).

(** [tf.cast(v, tf.float32)] *)
Definition tf_cast_float32 (v : pyvalue) : result (tensor R) :=
  match v with
  | PyNone => Raise ValueError
  | PyInt z => Ok (fun _ => IZR z)
  | PyFloat r => Ok (fun _ => r)
  | PyTensor t => Ok (fun s => IZR (t s))
  | PyVariable t => Ok (fun s => IZR (t s))
  end.

(** [tf.clip_by_value(t, lo, hi)] is [maximum(minimum(t, hi), lo)]. *)
Definition tf_clip_by_value (t lo hi : R) : R := Rmax (Rmin t hi) lo.

Definition add_summary (x : summary) : M unit :=
  fun g =>
    (Ok tt,
     {| has_global_step := has_global_step g;
        coll_all_sigma := coll_all_sigma g;
        coll_random_mean := coll_random_mean g;
        coll_restore_vars := coll_restore_vars g;
        summaries := summaries g ++ [x]; trainable := trainable g |}).

Definition tf_summary_scalar (name : string) (t : tensor R)
  (family : option string) : M unit :=
  add_summary (summary_scalar name t family).

Definition tf_summary_histogram (name : string) (t : any_tensor)
  (family : option string) : M unit :=
  add_summary (summary_histogram name t family).

(** ** [ramp_and_clip] (model.py, lines 186-193) *)

Definition ramp_and_clip (value_start value_stop step_start step_stop : R)
  (global_step : pyvalue) : M (tensor R) :=
  b <- lift (truth global_step) ;;
  global_step <- (if negb b then tf_get_or_create_global_step
                  else ret global_step) ;;
  inv <- lift (py_div 1 (step_stop - step_start)) ;;
  step <- lift (tf_cast_float32 global_step) ;;
  let pi := fun s : session =>
    value_start + (value_stop - value_start) *
      tf_clip_by_value (inv * (step s - step_start)) 0 1 in
  tf_summary_scalar "pi" pi (Some "summaries") ;;;
  ret pi.

(** A session of which only the step counter matters. *)
Definition at_step (t : Z) : session :=
  {| sess_global_step := t; sess_input := []; sess_target := [];
     sess_var := fun _ => []; sess_noise := fun _ => [] |}.

(** ** Configuration, prior and layers *)

(** Modelled from the spec: the configuration module [conf] is not among the
    sources; these are the fields the constructor reads, [num_filters] being
    the ordered triple of channel counts of the three convolution stages. *)
Record config := {
  sigma_prior : R;
  max_steps : Z;
  clip_norm : R;
  optimizer_name : string;
  num_layers : nat;
  hidden_dim : nat;
  num_filters : nat * nat * nat;
  get_filter_shape : bool -> list nat
}.

Inductive prior_t := MixturePrior (sigma : R).

Inductive activation := selu.

(** The three layer classes, each with the arguments of its constructor
    call in model.py. *)
Inductive layer :=
| BayesianLSTMCell (hidden : nat) (p : prior_t) (forget_bias : R)
    (state_is_tuple layer_norm : bool)
| BayesianConvCell (name : string) (filters : nat) (filter_shape : list nat)
    (stride : nat) (p : prior_t) (act : activation)
| SoftmaxLayer (classes : nat) (p : prior_t).

Definition is_conv (l : layer) : bool :=
  match l with BayesianConvCell _ _ _ _ _ _ => true | _ => false end.

Definition is_lstm (l : layer) : bool :=
  match l with BayesianLSTMCell _ _ _ _ _ => true | _ => false end.

Definition layer_stride (l : layer) : option nat :=
  match l with BayesianConvCell _ _ _ k _ _ => Some k | _ => None end.

(** What the constructor uses of the layer library and of TensorFlow's
    differentiation and recurrent unrolling, none of which is in model.py:
    applying a layer, its KL term, the scale and mean tensors and the
    variables it creates, [tf.gradients], [tf.unstack] and
    [tf.nn.static_rnn] over a [MultiRNNCell]. *)
Class Backend := {
  layer_call : layer -> batch_tensor -> batch_tensor;
  get_kl : layer -> tensor R;
  layer_sigma : layer -> list (tensor (list R));
  layer_mean : layer -> list (tensor (list R));
  layer_variables : layer -> list string;
  tf_gradients : tensor R -> list string -> list (option (tensor (list R)));
  tf_unstack : batch_tensor -> nat -> list batch_tensor;
  tf_static_rnn : list layer -> list batch_tensor -> list batch_tensor
}.

(** Modelled from the spec: [make_train_op(optimizer_name, grads, tvars)] of
    util.util is not among the sources; the training operation is recorded by
    the optimizer it names and the gradients and variables it pairs. *)
Record train_op_t := make_train_op {
  op_optimizer : string;
  op_grads : list (option (tensor (list R)));
  op_tvars : list string
}.

(** ** More TensorFlow operations *)

(** [tf.placeholder(tf.float32, [None] + list(size_sample), name='input')] *)
Definition input_placeholder (size_sample : list nat) : batch_tensor :=
  {| bt_shape := None :: map Some size_sample; bt_rows := sess_input |}.

(** [tf.placeholder(tf.int32, [None, ], name='target')] *)
Definition target_placeholder : tensor (list Z) := sess_target.

(** [tf.expand_dims(t, axis)] for an axis behind the batch axis: a dimension
    of size one is inserted, the entries stay as they are. *)
Definition tf_expand_dims (t : batch_tensor) (axis : nat) : batch_tensor :=
  {| bt_shape := firstn axis (bt_shape t) ++ Some 1%nat :: skipn axis (bt_shape t);
     bt_rows := bt_rows t |}.

(** [shape.num_elements()]: the product of the dimensions when all are known. *)
Fixpoint num_elements (sh : list (option nat)) : option nat :=
  match sh with
  | [] => Some 1%nat
  | Some d :: sh' => option_map (Nat.mul d) (num_elements sh')
  | None :: _ => None
  end.

(** [tf.reshape(t, shape=[-1, n])] *)
Definition tf_reshape_rows (t : batch_tensor) (n : option nat) : batch_tensor :=
  {| bt_shape := [None; n]; bt_rows := bt_rows t |}.

Definition sum_list (l : list R) : R := fold_right Rplus 0 l.

(** [tf.reduce_mean] of a float tensor given by its entries. *)
Definition tf_reduce_mean (l : list R) : R := sum_list l / INR (length l).

Definition softmax_row (row : list R) : list R :=
  map (fun x => exp x / sum_list (map exp row)) row.

(** [tf.nn.softmax(logits)] *)
Definition tf_nn_softmax (logits : batch_tensor) : batch_tensor :=
  {| bt_shape := bt_shape logits;
     bt_rows := fun s => map softmax_row (bt_rows logits s) |}.

(** Cross entropy of one row of logits against its integer label: minus the
    logarithm of the softmax probability of the label. *)
Definition xent_row (row : list R) (label : Z) : R :=
  - ln (nth (Z.to_nat label) (softmax_row row) 0).

(** [tf.nn.sparse_softmax_cross_entropy_with_logits(logits=, labels=)] *)
Definition tf_sparse_softmax_cross_entropy_with_logits
  (logits : batch_tensor) (labels : tensor (list Z)) : tensor (list R) :=
  fun s => map (fun rl => xent_row (fst rl) (snd rl))
               (combine (bt_rows logits s) (labels s)).

(** Index of the first largest entry, scanning from position [i] with the
    best entry so far [best] at position [besti]. *)
Fixpoint argmax_from (best : R) (besti i : nat) (l : list R) : nat :=
  match l with
  | [] => besti
  | x :: l' => if Rlt_dec best x then argmax_from x i (S i) l'
               else argmax_from best besti (S i) l'
  end.

Definition argmax_row (row : list R) : Z :=
  match row with
  | [] => 0%Z
  | x :: l => Z.of_nat (argmax_from x 0 1 l)
  end.

(** [tf.argmax(logits, axis=1, output_type=tf.int32)] *)
Definition tf_argmax (logits : batch_tensor) : tensor (list Z) :=
  fun s => map argmax_row (bt_rows logits s).

(** [tf.equal] on two integer vectors *)
Definition tf_equal (a b : tensor (list Z)) : tensor (list bool) :=
  fun s => map (fun p => (fst p =? snd p)%Z) (combine (a s) (b s)).

(** [tf.cast(., tf.float32)] of a boolean vector *)
Definition tf_cast_bool (a : tensor (list bool)) : tensor (list R) :=
  fun s => map (fun b : bool => if b then 1 else 0) (a s).

(** Sum of the squares of the entries of the gradients that are not [None]. *)
Fixpoint sum_squares (ts : list (option (list R))) : R :=
  match ts with
  | [] => 0
  | None :: ts' => sum_squares ts'
  | Some t :: ts' => sum_list (map (fun x => x * x) t) + sum_squares ts'
  end.

Definition run_all (ts : list (option (tensor (list R)))) (s : session)
  : list (option (list R)) :=
  map (option_map (fun t : tensor (list R) => t s)) ts.

(** [tf.global_norm(t_list)] *)
Definition tf_global_norm (ts : list (option (tensor (list R)))) : tensor R :=
  fun s => sqrt (sum_squares (run_all ts s)).

(** [tf.clip_by_global_norm(t_list, clip_norm)]: every entry becomes
    [t * clip_norm / max(global_norm, clip_norm)]; the second result is the
    global norm of [t_list] itself. *)
Definition tf_clip_by_global_norm (ts : list (option (tensor (list R))))
  (clip : R) : list (option (tensor (list R))) * tensor R :=
  let global_norm := tf_global_norm ts in
  (map (option_map (fun (t : tensor (list R)) (s : session) =>
          map (fun x => x * clip / Rmax (global_norm s) clip) (t s))) ts,
   global_norm).

Definition tf_trainable_variables : M (list string) :=
  fun g => (Ok (trainable g), g).

Definition tf_get_collection_all_sigma : M (list (tensor (list R))) :=
  fun g => (Ok (coll_all_sigma g), g).

Definition tf_get_collection_random_mean : M (list (tensor (list R))) :=
  fun g => (Ok (coll_random_mean g), g).

(** [tf.add_to_collection('restore_vars', var)] *)
Definition tf_add_to_collection_restore_vars (var : any_tensor) : M unit :=
  fun g =>
    (Ok tt,
     {| has_global_step := has_global_step g;
        coll_all_sigma := coll_all_sigma g;
        coll_random_mean := coll_random_mean g;
        coll_restore_vars := coll_restore_vars g ++ [var];
        summaries := summaries g; trainable := trainable g |}).

(** [tf.summary.merge_all()] *)
Definition tf_summary_merge_all : M (list summary) :=
  fun g => (Ok (summaries g), g).

(** [tf.concat([tf.reshape(t, [-1]) for t in ts], axis=0)] *)
Definition tf_concat_flat (ts : list (tensor (list R))) : tensor (list R) :=
  fun s => concat (map (fun t : tensor (list R) => t s) ts).

(** ** The class [Model] (model.py, lines 8-183) *)

Section ModelConstruction.

Context {backend : Backend}.

(** Modelled from the spec: the constructors of util_layers are not among the
    sources; on construction a layer creates its trainable parameters and
    registers its scale tensors in 'all_sigma' and its mean tensors in
    'random_mean'. *)
Definition new_layer (l : layer) : M layer :=
  fun g =>
    (Ok l,
     {| has_global_step := has_global_step g;
        coll_all_sigma := coll_all_sigma g ++ layer_sigma l;
        coll_random_mean := coll_random_mean g ++ layer_mean l;
        coll_restore_vars := coll_restore_vars g;
        summaries := summaries g;
        trainable := trainable g ++ layer_variables l |}).

(** The attributes of [self] once the constructor has returned.  The two
    [tf.train.Saver] handles and [init_op] carry no data and are left out. *)
Record Model := {
  x_placeholder : batch_tensor;
  y_placeholder : tensor (list Z);
  prior : prior_t;
  is_time_series : bool;
  layers : list layer;
  predictions : batch_tensor;
  loss : tensor R;
  kl_loss : tensor R;
  train_op : train_op_t;
  accuracy : tensor R;
  all_sigma : tensor (list R);
  all_SNR : tensor (list R);
  total_bits : tensor R;
  summary_op : list summary
}.

(** The local variables of the constructor that the properties below speak
    about; the constructor returns them next to [self]. *)
Record locals := {
  cnn_or_rnn_outputs : batch_tensor;
  logits : batch_tensor;
  num_batches : Z;
  pi : tensor R;
  total_loss : tensor R;
  tvars : list string;
  raw_grads : list (option (tensor (list R)));
  grads : list (option (tensor (list R)));
  grads_norm : tensor R;
  sigma_collection : list (tensor (list R))
}.

(** The loop [for _ in range(conf.num_layers)] of [add_RNN]. *)
Fixpoint append_lstm_cells (conf : config) (p : prior_t) (n : nat)
  (self_layers : list layer) : M (list layer) :=
  match n with
  | O => ret self_layers
  | S n' =>
      lstm_cell <- new_layer (BayesianLSTMCell (hidden_dim conf) p 1 true false) ;;
      append_lstm_cells conf p n' (self_layers ++ [lstm_cell])
  end.

(** [Model.add_RNN]: [self.layers] is passed in and returned. *)
Definition add_RNN (conf : config) (x_placeholder : batch_tensor) (p : prior_t)
  (self_layers : list layer) : M (batch_tensor * list layer) :=
  let inputs := tf_unstack (tf_expand_dims x_placeholder 1) 2 in
  self_layers <- append_lstm_cells conf p (num_layers conf) self_layers ;;
  let outputs := tf_static_rnn self_layers inputs in
  match rev outputs with
  | [] => raise IndexError
  | outputs_last :: _ => ret (outputs_last, self_layers)
  end.

(** The local [inputs] of [add_CNN]. *)
Definition add_CNN_inputs (x_placeholder : batch_tensor)
  (is_time_series : bool) : batch_tensor :=
  if is_time_series
  then tf_expand_dims (tf_expand_dims x_placeholder 2) 3
  else x_placeholder.

(** [Model.add_CNN]: [self.layers] is passed in and returned. *)
Definition add_CNN (conf : config) (x_placeholder : batch_tensor) (p : prior_t)
  (is_time_series : bool) (self_layers : list layer)
  : M (batch_tensor * list layer) :=
  let inputs := add_CNN_inputs x_placeholder is_time_series in
  let filter_shape := get_filter_shape conf is_time_series in
  (* First layer *)
  conv_layer1 <- new_layer (BayesianConvCell "conv1" (fst (fst (num_filters conf)))
                              filter_shape 3 p selu) ;;
  let hidden1 := layer_call conv_layer1 inputs in
  let self_layers := self_layers ++ [conv_layer1] in
  tf_summary_histogram "Layer1" (Batch hidden1) (Some "activations") ;;;
  (* Second layer *)
  conv_layer2 <- new_layer (BayesianConvCell "conv2" (snd (fst (num_filters conf)))
                              filter_shape 3 p selu) ;;
  let hidden2 := layer_call conv_layer2 hidden1 in
  let self_layers := self_layers ++ [conv_layer2] in
  (* Third layer *)
  conv_layer3 <- new_layer (BayesianConvCell "conv3" (snd (num_filters conf))
                              filter_shape 3 p selu) ;;
  let hidden3 := layer_call conv_layer3 hidden2 in
  let self_layers := self_layers ++ [conv_layer3] in
  let h3_shape := bt_shape hidden3 in
  let outputs := tf_reshape_rows hidden3 (num_elements (tl h3_shape)) in
  ret (outputs, self_layers).

(** [Model.softmax_layer] *)
Definition softmax_layer (p : prior_t) (self_layers : list layer)
  (outputs : batch_tensor) (num_classes : nat)
  : M (batch_tensor * list layer) :=
  softmaxlayer <- new_layer (SoftmaxLayer num_classes p) ;;
  let self_layers := self_layers ++ [softmaxlayer] in
  ret (layer_call softmaxlayer outputs, self_layers).

(** [tf.abs(mean)/sig], entry by entry *)
Definition snr_of (mean sig : tensor (list R)) : tensor (list R) :=
  fun s => map (fun ms => Rabs (fst ms) / snd ms) (combine (mean s) (sig s)).

(** [Model.add_tensorboard_summaries]; returns [self.all_sigma] and
    [self.all_SNR]. *)
Definition add_tensorboard_summaries (loss kl_loss accuracy grads_norm : tensor R)
  : M (tensor (list R) * tensor (list R)) :=
  tf_summary_scalar "loss" loss (Some "summaries") ;;;
  tf_summary_scalar "kl_loss" kl_loss (Some "summaries") ;;;
  tf_summary_scalar "grads_norm" grads_norm (Some "summaries") ;;;
  tf_summary_scalar "accuracy" accuracy (Some "summaries") ;;;
  sigmas <- tf_get_collection_all_sigma ;;
  let all_sigma := tf_concat_flat sigmas in
  tf_summary_histogram "Sigmas" (Flat all_sigma) (Some "sigmas") ;;;
  means <- tf_get_collection_random_mean ;;
  sigmas' <- tf_get_collection_all_sigma ;;
  let all_SNR :=
    tf_concat_flat (map (fun ms => snr_of (fst ms) (snd ms)) (combine means sigmas')) in
  tf_summary_histogram "snr" (Flat all_SNR) (Some "SNR") ;;;
  ret (all_sigma, all_SNR).

(** The loop of [add_to_collections]. *)
Fixpoint add_all_to_restore_vars (vars : list any_tensor) : M unit :=
  match vars with
  | [] => ret tt
  | var :: vars' =>
      tf_add_to_collection_restore_vars var ;;; add_all_to_restore_vars vars'
  end.

(** [Model.add_to_collections] *)
Definition add_to_collections (x_placeholder : batch_tensor)
  (y_placeholder : tensor (list Z)) (predictions : batch_tensor)
  (loss accuracy : tensor R) : M unit :=
  add_all_to_restore_vars
    [Batch x_placeholder; Labels y_placeholder; Batch predictions;
     Scalar loss; Scalar accuracy].

(** The loop [for layer in self.layers: self.kl_loss += layer.get_kl()],
    started from [0.0]. *)
Definition sum_kl (self_layers : list layer) : tensor R :=
  fold_left (fun (acc : tensor R) (l : layer) (s : session) => acc s + get_kl l s)
            self_layers (fun _ => 0).

(** Lines 81-86: the loop adding [tf.reduce_mean(var)] for every tensor of
    the collection, then minus the logarithm of the quotient by the number of
    tensors, over [log 2]. *)
Definition total_bits_of (sigma_collection : list (tensor (list R))) : tensor R :=
  let total_bits :=
    fold_left (fun (acc : tensor R) (var : tensor (list R)) (s : session) =>
                 acc s + tf_reduce_mean (var s))
              sigma_collection (fun _ => 0) in
  fun s => - ln (total_bits s / INR (length sigma_collection)) / ln 2.

(** [Model.__init__] *)
Definition Model__init__ (conf : config) (num_classes : nat)
  (size_sample : list nat) : M (Model * locals) :=
  (* Set up the placeholders *)
  let x_placeholder := input_placeholder size_sample in
  let y_placeholder := target_placeholder in
  (* Instantiate a prior over the weights *)
  let prior := MixturePrior (sigma_prior conf) in
  let is_time_series := (length size_sample =? 1)%nat in
  let use_rnn := false in
  let self_layers : list layer := [] in
  '(outputs, self_layers) <-
     (if use_rnn : bool then add_RNN conf x_placeholder prior self_layers
      else add_CNN conf x_placeholder prior is_time_series self_layers) ;;
  '(logits, self_layers) <- softmax_layer prior self_layers outputs num_classes ;;
  let predictions := tf_nn_softmax logits in
  (* Classification loss *)
  let class_loss := tf_sparse_softmax_cross_entropy_with_logits logits y_placeholder in
  let loss := fun s : session => tf_reduce_mean (class_loss s) in
  (* KL loss *)
  let kl_loss := sum_kl self_layers in
  let num_batches := max_steps conf in
  pi <- ramp_and_clip (1 / 1000) (1 / 10) 3000 20000 PyNone ;;
  let total_loss := fun s : session => loss s + pi s * kl_loss s in
  (* Set up the optimizer *)
  tvars <- tf_trainable_variables ;;
  (* Clip the gradients if desired *)
  let raw_grads := tf_gradients total_loss tvars in
  let '(grads, grads_norm) :=
    if Rlt_dec 0 (clip_norm conf)
    then tf_clip_by_global_norm raw_grads (clip_norm conf)
    else (raw_grads, tf_global_norm raw_grads) in
  let train_op := make_train_op (optimizer_name conf) grads tvars in
  (* Calculate accuracy *)
  let decisions := tf_argmax logits in
  let accuracy := fun s : session =>
    tf_reduce_mean (tf_cast_bool (tf_equal decisions y_placeholder) s) in
  '(all_sigma, all_SNR) <- add_tensorboard_summaries loss kl_loss accuracy grads_norm ;;
  (* Calculate total number of bits *)
  sigma_collection <- tf_get_collection_all_sigma ;;
  let total_bits := total_bits_of sigma_collection in
  tf_summary_scalar "Total bits" total_bits None ;;;
  (* Final Tensorflow bookkeeping *)
  summary_op <- tf_summary_merge_all ;;
  add_to_collections x_placeholder y_placeholder predictions loss accuracy ;;;
  ret ({| x_placeholder := x_placeholder; y_placeholder := y_placeholder;
          prior := prior; is_time_series := is_time_series;
          layers := self_layers; predictions := predictions;
          loss := loss; kl_loss := kl_loss; train_op := train_op;
          accuracy := accuracy; all_sigma := all_sigma; all_SNR := all_SNR;
          total_bits := total_bits; summary_op := summary_op |},
       {| cnn_or_rnn_outputs := outputs; logits := logits;
          num_batches := num_batches; pi := pi; total_loss := total_loss;
          tvars := tvars; raw_grads := raw_grads; grads := grads;
          grads_norm := grads_norm; sigma_collection := sigma_collection |}).

End ModelConstruction.

(** ** What the specification says, for comparison with the code *)

(** The specification's total bits: minus the base-2 logarithm of the mean
    of every registered scale value, taken over all entries of all tensors. *)
Definition spec_total_bits (scales : list (list R)) : R :=
  - ln (tf_reduce_mean (concat scales)) / ln 2.


(** ** A small concrete configuration and backend *)

Definition example_conf : config :=
  {| sigma_prior := 1; max_steps := 500; clip_norm := 1;
     optimizer_name := "adam"; num_layers := 2; hidden_dim := 4;
     num_filters := (2, 2, 2)%nat;
     get_filter_shape := fun ts : bool => if ts then [3; 1]%nat else [3; 3]%nat |}.

(** Every convolution has one scale entry 1/2, the softmax layer three
    entries 5/2; every layer has KL term 1; the gradient is the single
    tensor (3, 4); the softmax layer passes its rows on. *)
Definition example_backend : Backend :=
  {| layer_call := fun _ t => t;
     get_kl := fun _ _ => 1;
     layer_sigma := fun l =>
       match l with
       | SoftmaxLayer _ _ => [fun _ => [5 / 2; 5 / 2; 5 / 2]]
       | _ => [fun _ => [1 / 2]]
       end;
     layer_mean := fun _ => [fun _ => [0]];
     layer_variables := fun _ => ["w"];
     tf_gradients := fun _ _ => [Some (fun _ => [3; 4])];
     tf_unstack := fun t _ => [t];
     tf_static_rnn := fun _ ts => ts |}.

(** A session at step 11500 feeding two samples of two entries. *)
Definition example_session : session :=
  {| sess_global_step := 11500; sess_input := [[1; 3]; [2; 0]];
     sess_target := [1; 1]%Z;
     sess_var := fun _ => []; sess_noise := fun _ => [] |}.

(** The same configuration with another step budget. *)
Definition with_max_steps (conf : config) (n : Z) : config :=
  {| sigma_prior := sigma_prior conf; max_steps := n;
     clip_norm := clip_norm conf; optimizer_name := optimizer_name conf;
     num_layers := num_layers conf; hidden_dim := hidden_dim conf;
     num_filters := num_filters conf;
     get_filter_shape := get_filter_shape conf |}.

(** The graph after a call of [ramp_and_clip] that read the step counter. *)
Definition with_pi_summary (g : graph) (pi : tensor R) : graph :=
  {| has_global_step := true;
     coll_all_sigma := coll_all_sigma g;
     coll_random_mean := coll_random_mean g;
     coll_restore_vars := coll_restore_vars g;
     summaries := summaries g ++ [summary_scalar "pi" pi (Some "summaries")];
     trainable := trainable g |}.

(** * Properties *)

(** ** The annealing schedule *)

Lemma py_div_nonzero (a b : R) : b <> 0 -> py_div a b = Ok (a / b).
Proof.
  intros Hb. unfold py_div. destruct (Req_EM_T b 0) as [E | _]; [contradiction | reflexivity].
Qed.

Lemma py_div_zero (a : R) : py_div a 0 = Raise ZeroDivisionError.
Proof.
  unfold py_div. destruct (Req_EM_T 0 0) as [_ | N]; [reflexivity | now elim N].
Qed.

(** With a falsy [global_step] and distinct steps the helper reads the
    counter of the graph and returns the clipped ramp. *)
Lemma ramp_and_clip_counter (vs ve ss sp : R) (gs : pyvalue) (g : graph) :
  sp <> ss -> truth gs = Ok false ->
  let pi := fun s : session =>
    vs + (ve - vs) *
      tf_clip_by_value (1 / (sp - ss) * (IZR (sess_global_step s) - ss)) 0 1 in
  ramp_and_clip vs ve ss sp gs g = (Ok pi, with_pi_summary g pi).
Proof.
  intros Hne Hgs pi. unfold ramp_and_clip, bind, lift. rewrite Hgs. simpl.
  rewrite py_div_nonzero by lra. reflexivity.
Qed.

Lemma clip_below (x : R) : x <= 0 -> tf_clip_by_value x 0 1 = 0.
Proof.
  intros Hx. unfold tf_clip_by_value, Rmax, Rmin.
  destruct (Rle_dec x 1); destruct (Rle_dec _ 0); lra.
Qed.

Lemma clip_above (x : R) : 1 <= x -> tf_clip_by_value x 0 1 = 1.
Proof.
  intros Hx. unfold tf_clip_by_value, Rmax, Rmin.
  destruct (Rle_dec x 1); destruct (Rle_dec _ 0); lra.
Qed.

Lemma clip_inside (x : R) : 0 <= x <= 1 -> tf_clip_by_value x 0 1 = x.
Proof.
  intros Hx. unfold tf_clip_by_value, Rmax, Rmin.
  destruct (Rle_dec x 1); destruct (Rle_dec _ 0); lra.
Qed.

(** The fraction of the ramp done at step [t]. *)
Lemma fraction_bounds (ss sp t : R) :
  ss < sp ->
  (t <= ss -> 1 / (sp - ss) * (t - ss) <= 0) /\
  (sp <= t -> 1 <= 1 / (sp - ss) * (t - ss)) /\
  (ss < t < sp -> 0 < 1 / (sp - ss) * (t - ss) < 1).
Proof.
  intros Hlt.
  assert (Hd : 0 < sp - ss) by lra.
  assert (Hi : 0 < / (sp - ss)) by (apply Rinv_0_lt_compat; exact Hd).
  assert (Hone : / (sp - ss) * (sp - ss) = 1) by (apply Rinv_l; lra).
  unfold Rdiv. rewrite Rmult_1_l.
  repeat split; intros; nra.
Qed.

(** C1 (as amended): for [step_start < step_stop] the coefficient computed
    from the step counter is [value_start] up to [step_start], [value_stop]
    from [step_stop] on, the linear interpolation in between, and strictly
    increasing there when [value_start < value_stop]. *)
Theorem ramp_and_clip_schedule (vs ve ss sp : R) (g : graph) :
  ss < sp ->
  exists pi g',
    ramp_and_clip vs ve ss sp PyNone g = (Ok pi, g') /\
    (forall s, IZR (sess_global_step s) <= ss -> pi s = vs) /\
    (forall s, sp <= IZR (sess_global_step s) -> pi s = ve) /\
    (forall s, ss < IZR (sess_global_step s) < sp ->
       pi s = vs + (ve - vs) * (IZR (sess_global_step s) - ss) / (sp - ss)) /\
    (vs < ve ->
     forall s1 s2,
       ss < IZR (sess_global_step s1) ->
       IZR (sess_global_step s1) < IZR (sess_global_step s2) ->
       IZR (sess_global_step s2) < sp ->
       pi s1 < pi s2).
Proof.
  intros Hlt.
  eexists; eexists. split.
  - apply ramp_and_clip_counter; [lra | reflexivity].
  - cbv beta. repeat split.
    + intros s Hs. destruct (fraction_bounds ss sp (IZR (sess_global_step s)) Hlt) as (Hlo & _).
      rewrite clip_below by auto. lra.
    + intros s Hs. destruct (fraction_bounds ss sp (IZR (sess_global_step s)) Hlt) as (_ & Hhi & _).
      rewrite clip_above by auto. lra.
    + intros s Hs. destruct (fraction_bounds ss sp (IZR (sess_global_step s)) Hlt) as (_ & _ & Hin).
      rewrite clip_inside by (specialize (Hin Hs); lra).
      unfold Rdiv. ring.
    + intros Hv s1 s2 H1 H12 H2.
      destruct (fraction_bounds ss sp (IZR (sess_global_step s1)) Hlt) as (_ & _ & Hin1).
      destruct (fraction_bounds ss sp (IZR (sess_global_step s2)) Hlt) as (_ & _ & Hin2).
      rewrite !clip_inside by (first [specialize (Hin1 ltac:(lra)) | specialize (Hin2 ltac:(lra))]; lra).
      assert (Hi : 0 < / (sp - ss)) by (apply Rinv_0_lt_compat; lra).
      unfold Rdiv. rewrite !Rmult_1_l.
      apply Rplus_lt_compat_l, Rmult_lt_compat_l; [lra |].
      apply Rmult_lt_compat_l; [exact Hi | lra].
Qed.

Lemma ramp_and_clip_schedule_witness :
  exists pi g',
    ramp_and_clip (1 / 1000) (1 / 10) 3000 20000 PyNone empty_graph = (Ok pi, g') /\
    (forall s, IZR (sess_global_step s) <= 3000 -> pi s = 1 / 1000) /\
    (forall s, 20000 <= IZR (sess_global_step s) -> pi s = 1 / 10) /\
    (forall s, 3000 < IZR (sess_global_step s) < 20000 ->
       pi s = 1 / 1000 + (1 / 10 - 1 / 1000) * (IZR (sess_global_step s) - 3000) / (20000 - 3000)) /\
    (1 / 1000 < 1 / 10 ->
     forall s1 s2,
       3000 < IZR (sess_global_step s1) ->
       IZR (sess_global_step s1) < IZR (sess_global_step s2) ->
       IZR (sess_global_step s2) < 20000 ->
       pi s1 < pi s2).
Proof.
  apply (ramp_and_clip_schedule (1 / 1000) (1 / 10) 3000 20000 empty_graph). lra.
Defined.

(** C1 as stated fails: with [value_start = 1 > value_stop = 0] on the ramp
    from step 0 to step 10 the coefficient at step 2 is below the one at
    step 1. *)
Lemma ramp_and_clip_not_increasing :
  exists pi g',
    ramp_and_clip 1 0 0 10 PyNone empty_graph = (Ok pi, g') /\
    0 < 10 /\
    0 < IZR (sess_global_step (at_step 1)) /\
    IZR (sess_global_step (at_step 1)) < IZR (sess_global_step (at_step 2)) /\
    IZR (sess_global_step (at_step 2)) < 10 /\
    pi (at_step 2) < pi (at_step 1).
Proof.
  eexists; eexists. split.
  - apply ramp_and_clip_counter; [lra | reflexivity].
  - cbv beta. simpl sess_global_step.
    rewrite !clip_inside by lra. lra.
Qed.

(** The schedule of the model at the midpoint of its ramp. *)
Example ramp_and_clip_midpoint :
  exists pi g',
    ramp_and_clip (1 / 1000) (1 / 10) 3000 20000 PyNone empty_graph = (Ok pi, g') /\
    pi (at_step 3000) = 1 / 1000 /\
    pi (at_step 11500) = 505 / 10000 /\
    pi (at_step 20000) = 1 / 10.
Proof.
  eexists; eexists. split.
  - apply ramp_and_clip_counter; [lra | reflexivity].
  - cbv beta. simpl sess_global_step. repeat split.
    + rewrite clip_below by lra. lra.
    + rewrite clip_inside by lra. lra.
    + rewrite clip_above by lra. lra.
Qed.

Lemma minus_self_div (ss : R) : py_div 1 (ss - ss) = Raise ZeroDivisionError.
Proof. replace (ss - ss) with 0 by ring. apply py_div_zero. Qed.

(** C4 (as amended): when [step_stop] equals [step_start] and the truth test
    of [global_step] passes, the call fails with Python's ZeroDivisionError,
    raised by the division itself, and records no summary. *)
Theorem ramp_and_clip_equal_steps (vs ve ss : R) (gs : pyvalue) (g : graph) (b : bool) :
  truth gs = Ok b ->
  exists g',
    ramp_and_clip vs ve ss ss gs g = (Raise ZeroDivisionError, g') /\
    summaries g' = summaries g.
Proof.
  intros Hgs. unfold ramp_and_clip, bind, lift. rewrite Hgs.
  destruct b; simpl; rewrite minus_self_div; eexists; split; reflexivity.
Qed.

Lemma ramp_and_clip_equal_steps_witness :
  truth PyNone = Ok false /\
  exists g',
    ramp_and_clip (1 / 1000) (1 / 10) 3000 3000 PyNone empty_graph
      = (Raise ZeroDivisionError, g') /\
    summaries g' = summaries empty_graph.
Proof.
  split; [reflexivity |].
  apply (ramp_and_clip_equal_steps (1 / 1000) (1 / 10) 3000 PyNone empty_graph false).
  reflexivity.
Defined.

(** C4 as stated fails: with both steps 3000 the exception is
    ZeroDivisionError, not InvalidConfiguration. *)
Lemma ramp_and_clip_equal_steps_no_InvalidConfiguration :
  fst (ramp_and_clip (1 / 1000) (1 / 10) 3000 3000 PyNone empty_graph)
    = Raise (Exception "ZeroDivisionError") /\
  fst (ramp_and_clip (1 / 1000) (1 / 10) 3000 3000 PyNone empty_graph)
    <> Raise (Exception "InvalidConfiguration").
Proof.
  assert (E : fst (ramp_and_clip (1 / 1000) (1 / 10) 3000 3000 PyNone empty_graph)
              = Raise (Exception "ZeroDivisionError")).
  { unfold ramp_and_clip, bind, lift. simpl. rewrite minus_self_div. reflexivity. }
  split; [exact E | rewrite E; discriminate].
Qed.

(** A call that passes the truth test and has distinct steps succeeds; its
    result and the graph it leaves are these. *)
Lemma ramp_and_clip_succeeds (vs ve ss sp : R) (gs : pyvalue) (g : graph) (b : bool) :
  sp <> ss -> truth gs = Ok b ->
  exists step : tensor R,
    (if b then tf_cast_float32 gs = Ok step
     else step = fun s => IZR (sess_global_step s)) /\
    let pi := fun s : session =>
      vs + (ve - vs) * tf_clip_by_value (1 / (sp - ss) * (step s - ss)) 0 1 in
    ramp_and_clip vs ve ss sp gs g =
      (Ok pi,
       {| has_global_step := if b then has_global_step g else true;
          coll_all_sigma := coll_all_sigma g;
          coll_random_mean := coll_random_mean g;
          coll_restore_vars := coll_restore_vars g;
          summaries := summaries g ++ [summary_scalar "pi" pi (Some "summaries")];
          trainable := trainable g |}).
Proof.
  intros Hne Hgs. destruct b.
  - destruct gs as [| z | r | t | t]; simpl in Hgs; try discriminate.
    + injection Hgs as Hz.
      exists (fun _ => IZR z). split; [reflexivity |].
      unfold ramp_and_clip, bind, lift. simpl. rewrite Hz. simpl.
      rewrite py_div_nonzero by lra. reflexivity.
    + exists (fun _ => r). split; [reflexivity |].
      unfold ramp_and_clip, bind, lift. simpl.
      destruct (Req_EM_T r 0); [discriminate |]. simpl.
      rewrite py_div_nonzero by lra. reflexivity.
    + exists (fun s => IZR (t s)). split; [reflexivity |].
      unfold ramp_and_clip, bind, lift. simpl.
      rewrite py_div_nonzero by lra. reflexivity.
  - exists (fun s => IZR (sess_global_step s)). split; [reflexivity |].
    cbv zeta. rewrite ramp_and_clip_counter by assumption. reflexivity.
Qed.

(** C10: a falsy [global_step] (None, the integer 0, the float 0.0) is
    dropped and the step counter of the graph is read, being created on the
    way; a truthy [global_step] (a number other than zero, or a variable
    such as the global step itself) is used as given and the graph's counter
    is left as it was. *)
Theorem ramp_and_clip_global_step (vs ve ss sp : R) (gs : pyvalue) (g : graph) :
  sp <> ss ->
  (truth PyNone = Ok false /\ truth (PyInt 0) = Ok false /\
   truth (PyFloat 0) = Ok false) /\
  ((forall z, z <> 0%Z -> truth (PyInt z) = Ok true) /\
   (forall r, r <> 0 -> truth (PyFloat r) = Ok true) /\
   (forall t, truth (PyVariable t) = Ok true)) /\
  (truth gs = Ok false ->
   ramp_and_clip vs ve ss sp gs g = ramp_and_clip vs ve ss sp PyNone g /\
   exists pi g',
     ramp_and_clip vs ve ss sp gs g = (Ok pi, g') /\
     has_global_step g' = true /\
     forall s, pi s = vs + (ve - vs) *
       tf_clip_by_value (1 / (sp - ss) * (IZR (sess_global_step s) - ss)) 0 1) /\
  (truth gs = Ok true ->
   exists pi g' step,
     ramp_and_clip vs ve ss sp gs g = (Ok pi, g') /\
     tf_cast_float32 gs = Ok step /\
     has_global_step g' = has_global_step g /\
     forall s, pi s = vs + (ve - vs) *
       tf_clip_by_value (1 / (sp - ss) * (step s - ss)) 0 1) /\
  (forall z, z <> 0%Z ->
   exists pi g',
     ramp_and_clip vs ve ss sp (PyInt z) g = (Ok pi, g') /\
     has_global_step g' = has_global_step g /\
     forall s, pi s = vs + (ve - vs) *
       tf_clip_by_value (1 / (sp - ss) * (IZR z - ss)) 0 1) /\
  (forall r, r <> 0 ->
   exists pi g',
     ramp_and_clip vs ve ss sp (PyFloat r) g = (Ok pi, g') /\
     has_global_step g' = has_global_step g /\
     forall s, pi s = vs + (ve - vs) *
       tf_clip_by_value (1 / (sp - ss) * (r - ss)) 0 1) /\
  (forall t : tensor Z,
   exists pi g',
     ramp_and_clip vs ve ss sp (PyVariable t) g = (Ok pi, g') /\
     has_global_step g' = has_global_step g /\
     forall s, pi s = vs + (ve - vs) *
       tf_clip_by_value (1 / (sp - ss) * (IZR (t s) - ss)) 0 1).
Proof.
  intros Hne.
  assert (Hint : forall z, z <> 0%Z -> truth (PyInt z) = Ok true).
  { intros z Hz. simpl. destruct (Z.eqb_spec z 0); [contradiction | reflexivity]. }
  assert (Hfloat : forall r, r <> 0 -> truth (PyFloat r) = Ok true).
  { intros r Hr. simpl. destruct (Req_EM_T r 0); [contradiction | reflexivity]. }
  assert (Htrue : forall v, truth v = Ok true ->
            exists pi g' step,
              ramp_and_clip vs ve ss sp v g = (Ok pi, g') /\
              tf_cast_float32 v = Ok step /\
              has_global_step g' = has_global_step g /\
              forall s, pi s = vs + (ve - vs) *
                tf_clip_by_value (1 / (sp - ss) * (step s - ss)) 0 1).
  { intros v Hv.
    destruct (ramp_and_clip_succeeds vs ve ss sp v g true Hne Hv)
      as (step & Hcast & Hrun).
    eexists; eexists; exists step. split; [exact Hrun |].
    split; [exact Hcast |]. split; [reflexivity | intros s; reflexivity]. }
  split; [| split; [| split; [| split; [| split; [| split]]]]].
  - repeat split; try reflexivity.
    simpl. destruct (Req_EM_T 0 0) as [_ | N]; [reflexivity | now elim N].
  - repeat split; [exact Hint | exact Hfloat].
  - intros Hgs. split.
    + rewrite !ramp_and_clip_counter by (auto; reflexivity). reflexivity.
    + eexists; eexists. split; [apply ramp_and_clip_counter; auto |].
      split; [reflexivity | intros s; reflexivity].
  - exact (Htrue gs).
  - intros z Hz.
    destruct (Htrue (PyInt z) (Hint z Hz)) as (pi & g' & step & Hrun & Hcast & Hflag & Hval).
    exists pi, g'. split; [exact Hrun |]. split; [exact Hflag |].
    intros s. rewrite Hval. simpl in Hcast. injection Hcast as <-. reflexivity.
  - intros r Hr.
    destruct (Htrue (PyFloat r) (Hfloat r Hr)) as (pi & g' & step & Hrun & Hcast & Hflag & Hval).
    exists pi, g'. split; [exact Hrun |]. split; [exact Hflag |].
    intros s. rewrite Hval. simpl in Hcast. injection Hcast as <-. reflexivity.
  - intros t.
    destruct (Htrue (PyVariable t) eq_refl) as (pi & g' & step & Hrun & Hcast & Hflag & Hval).
    exists pi, g'. split; [exact Hrun |]. split; [exact Hflag |].
    intros s. rewrite Hval. simpl in Hcast. injection Hcast as <-. reflexivity.
Qed.

Lemma ramp_and_clip_global_step_witness :
  20000 <> 3000 /\
  (truth (PyInt 0) = Ok false /\
   ramp_and_clip (1 / 1000) (1 / 10) 3000 20000 (PyInt 0) empty_graph
     = ramp_and_clip (1 / 1000) (1 / 10) 3000 20000 PyNone empty_graph) /\
  (truth (PyVariable sess_global_step) = Ok true /\
   exists pi g',
     ramp_and_clip (1 / 1000) (1 / 10) 3000 20000 (PyVariable sess_global_step)
       empty_graph = (Ok pi, g') /\
     has_global_step g' = has_global_step empty_graph /\
     forall s, pi s = 1 / 1000 + (1 / 10 - 1 / 1000) *
       tf_clip_by_value (1 / (20000 - 3000) * (IZR (sess_global_step s) - 3000)) 0 1) /\
  (truth (PyInt 7) = Ok true /\
   exists pi g',
     ramp_and_clip (1 / 1000) (1 / 10) 3000 20000 (PyInt 7) empty_graph = (Ok pi, g') /\
     has_global_step g' = has_global_step empty_graph /\
     forall s, pi s = 1 / 1000 + (1 / 10 - 1 / 1000) *
       tf_clip_by_value (1 / (20000 - 3000) * (IZR 7 - 3000)) 0 1).
Proof.
  assert (Hne : 20000 <> 3000) by lra.
  destruct (ramp_and_clip_global_step (1 / 1000) (1 / 10) 3000 20000 (PyInt 0)
              empty_graph Hne)
    as (_ & _ & Hfalsy & _ & Hint & _ & Hvar).
  split; [exact Hne |].
  split; [split; [reflexivity | exact (proj1 (Hfalsy eq_refl))] |].
  split; [split; [reflexivity | exact (Hvar sess_global_step)] |].
  split; [reflexivity |].
  apply (Hint 7%Z). discriminate.
Defined.

(** ** More on the annealing schedule *)

Lemma clip_unit_bounds (x : R) : 0 <= tf_clip_by_value x 0 1 <= 1.
Proof.
  unfold tf_clip_by_value, Rmax, Rmin.
  destruct (Rle_dec x 1); destruct (Rle_dec _ 0); lra.
Qed.

Lemma clip_monotone (x y : R) :
  x <= y -> tf_clip_by_value x 0 1 <= tf_clip_by_value y 0 1.
Proof.
  intros Hxy. unfold tf_clip_by_value, Rmax, Rmin.
  destruct (Rle_dec x 1); destruct (Rle_dec y 1);
    repeat match goal with |- context [Rle_dec ?a 0] => destruct (Rle_dec a 0) end;
    lra.
Qed.

Lemma between_endpoints (vs ve c : R) :
  0 <= c <= 1 -> Rmin vs ve <= vs + (ve - vs) * c <= Rmax vs ve.
Proof.
  intros Hc. unfold Rmin, Rmax. destruct (Rle_dec vs ve); nra.
Qed.

(** X1: whatever the step, a successful call returns a coefficient between
    [value_start] and [value_stop]. *)
Theorem ramp_and_clip_range (vs ve ss sp : R) (gs : pyvalue) (g : graph) (b : bool) :
  sp <> ss -> truth gs = Ok b ->
  exists pi g',
    ramp_and_clip vs ve ss sp gs g = (Ok pi, g') /\
    forall s, Rmin vs ve <= pi s <= Rmax vs ve.
Proof.
  intros Hne Hgs.
  destruct (ramp_and_clip_succeeds vs ve ss sp gs g b Hne Hgs) as (step & _ & Hrun).
  eexists; eexists. split; [exact Hrun |].
  intros s. apply between_endpoints, clip_unit_bounds.
Qed.

Lemma ramp_and_clip_range_witness :
  20000 <> 3000 /\ truth (PyInt 7) = Ok true /\
  exists pi g',
    ramp_and_clip (1 / 1000) (1 / 10) 3000 20000 (PyInt 7) empty_graph = (Ok pi, g') /\
    forall s, Rmin (1 / 1000) (1 / 10) <= pi s <= Rmax (1 / 1000) (1 / 10).
Proof.
  split; [lra |]. split; [reflexivity |].
  apply (ramp_and_clip_range (1 / 1000) (1 / 10) 3000 20000 (PyInt 7) empty_graph true);
    [lra | reflexivity].
Defined.

(** X2: for [step_start < step_stop] and [value_start <= value_stop] the
    coefficient read off the step counter never decreases as the counter
    grows, flat parts included. *)
Theorem ramp_and_clip_monotone (vs ve ss sp : R) (g : graph) :
  ss < sp -> vs <= ve ->
  exists pi g',
    ramp_and_clip vs ve ss sp PyNone g = (Ok pi, g') /\
    forall s1 s2,
      (sess_global_step s1 <= sess_global_step s2)%Z -> pi s1 <= pi s2.
Proof.
  intros Hlt Hv.
  eexists; eexists. split.
  - apply ramp_and_clip_counter; [lra | reflexivity].
  - cbv beta. intros s1 s2 Hs. apply IZR_le in Hs.
    assert (Hi : 0 < / (sp - ss)) by (apply Rinv_0_lt_compat; lra).
    apply Rplus_le_compat_l, Rmult_le_compat_l; [lra |].
    apply clip_monotone. unfold Rdiv. rewrite !Rmult_1_l.
    apply Rmult_le_compat_l; lra.
Qed.

Lemma ramp_and_clip_monotone_witness :
  3000 < 20000 /\ 1 / 1000 <= 1 / 10 /\
  exists pi g',
    ramp_and_clip (1 / 1000) (1 / 10) 3000 20000 PyNone empty_graph = (Ok pi, g') /\
    forall s1 s2,
      (sess_global_step s1 <= sess_global_step s2)%Z -> pi s1 <= pi s2.
Proof.
  split; [lra |]. split; [lra |].
  apply (ramp_and_clip_monotone (1 / 1000) (1 / 10) 3000 20000 empty_graph); lra.
Defined.

(** X3: with the steps in the other order, [step_stop < step_start], the
    call still succeeds and the schedule runs backwards: [value_stop] up to
    [step_stop], [value_start] from [step_start] on. *)
Theorem ramp_and_clip_reversed_steps (vs ve ss sp : R) (g : graph) :
  sp < ss ->
  exists pi g',
    ramp_and_clip vs ve ss sp PyNone g = (Ok pi, g') /\
    (forall s, IZR (sess_global_step s) <= sp -> pi s = ve) /\
    (forall s, ss <= IZR (sess_global_step s) -> pi s = vs).
Proof.
  intros Hlt.
  assert (Hi : / (sp - ss) < 0) by (apply Rinv_lt_0_compat; lra).
  assert (Hone : / (sp - ss) * (sp - ss) = 1) by (apply Rinv_l; lra).
  eexists; eexists. split.
  - apply ramp_and_clip_counter; [lra | reflexivity].
  - cbv beta. unfold Rdiv. split; intros s Hs.
    + rewrite clip_above by (rewrite Rmult_1_l; nra). lra.
    + rewrite clip_below by (rewrite Rmult_1_l; nra). lra.
Qed.

Lemma ramp_and_clip_reversed_steps_witness :
  3000 < 20000 /\
  exists pi g',
    ramp_and_clip (1 / 1000) (1 / 10) 20000 3000 PyNone empty_graph = (Ok pi, g') /\
    (forall s, IZR (sess_global_step s) <= 3000 -> pi s = 1 / 10) /\
    (forall s, 20000 <= IZR (sess_global_step s) -> pi s = 1 / 1000).
Proof.
  split; [lra |].
  apply (ramp_and_clip_reversed_steps (1 / 1000) (1 / 10) 20000 3000 empty_graph). lra.
Defined.

(** X4: a successful call records the single summary 'pi' of the tensor it
    returns, behind the summaries already there, and leaves the three
    collections and the trainable variables as they were; the step counter
    is created exactly when [global_step] was falsy. *)
Theorem ramp_and_clip_graph_effect (vs ve ss sp : R) (gs : pyvalue) (g : graph) (b : bool) :
  sp <> ss -> truth gs = Ok b ->
  exists pi g',
    ramp_and_clip vs ve ss sp gs g = (Ok pi, g') /\
    summaries g' = summaries g ++ [summary_scalar "pi" pi (Some "summaries")] /\
    coll_all_sigma g' = coll_all_sigma g /\
    coll_random_mean g' = coll_random_mean g /\
    coll_restore_vars g' = coll_restore_vars g /\
    trainable g' = trainable g /\
    has_global_step g' = (if b then has_global_step g else true).
Proof.
  intros Hne Hgs.
  destruct (ramp_and_clip_succeeds vs ve ss sp gs g b Hne Hgs) as (step & _ & Hrun).
  eexists; eexists. split; [exact Hrun |].
  repeat split; reflexivity.
Qed.

Lemma ramp_and_clip_graph_effect_witness :
  20000 <> 3000 /\ truth (PyFloat 2) = Ok true /\
  exists pi g',
    ramp_and_clip (1 / 1000) (1 / 10) 3000 20000 (PyFloat 2) empty_graph = (Ok pi, g') /\
    summaries g' = summaries empty_graph ++ [summary_scalar "pi" pi (Some "summaries")] /\
    coll_all_sigma g' = coll_all_sigma empty_graph /\
    coll_random_mean g' = coll_random_mean empty_graph /\
    coll_restore_vars g' = coll_restore_vars empty_graph /\
    trainable g' = trainable empty_graph /\
    has_global_step g' = (if true then has_global_step empty_graph else true).
Proof.
  assert (Ht : truth (PyFloat 2) = Ok true).
  { simpl. destruct (Req_EM_T 2 0); [lra | reflexivity]. }
  split; [lra |]. split; [exact Ht |].
  apply (ramp_and_clip_graph_effect (1 / 1000) (1 / 10) 3000 20000 (PyFloat 2) empty_graph true);
    [lra | exact Ht].
Defined.

(** X5: when the steps are equal and [global_step] is falsy, the call has
    already created the step counter when the division fails: the graph it
    leaves has the counter and is otherwise the graph it was given. *)
Theorem ramp_and_clip_failure_keeps_counter (vs ve ss : R) (gs : pyvalue) (g : graph) :
  truth gs = Ok false ->
  exists g',
    ramp_and_clip vs ve ss ss gs g = (Raise ZeroDivisionError, g') /\
    has_global_step g' = true /\
    coll_all_sigma g' = coll_all_sigma g /\
    coll_random_mean g' = coll_random_mean g /\
    coll_restore_vars g' = coll_restore_vars g /\
    summaries g' = summaries g /\
    trainable g' = trainable g.
Proof.
  intros Hgs. unfold ramp_and_clip, bind, lift. rewrite Hgs. simpl.
  rewrite minus_self_div. eexists. repeat split; reflexivity.
Qed.

Lemma ramp_and_clip_failure_keeps_counter_witness :
  truth (PyInt 0) = Ok false /\
  exists g',
    ramp_and_clip (1 / 1000) (1 / 10) 3000 3000 (PyInt 0) empty_graph
      = (Raise ZeroDivisionError, g') /\
    has_global_step g' = true /\
    coll_all_sigma g' = coll_all_sigma empty_graph /\
    coll_random_mean g' = coll_random_mean empty_graph /\
    coll_restore_vars g' = coll_restore_vars empty_graph /\
    summaries g' = summaries empty_graph /\
    trainable g' = trainable empty_graph.
Proof.
  split; [reflexivity |].
  apply (ramp_and_clip_failure_keeps_counter (1 / 1000) (1 / 10) 3000 (PyInt 0) empty_graph).
  reflexivity.
Defined.

(** ** Sums, means and the first maximum *)

Lemma fold_left_tensor_sum {A : Type} (f : A -> tensor R) (l : list A)
  (init : tensor R) (s : session) :
  fold_left (fun (acc : tensor R) (x : A) (s : session) => acc s + f x s) l init s
  = init s + sum_list (map (fun x => f x s) l).
Proof.
  revert init. induction l as [| x l IH]; intros init; simpl.
  - lra.
  - rewrite IH. lra.
Qed.

Lemma sum_list_app (l1 l2 : list R) :
  sum_list (l1 ++ l2) = sum_list l1 + sum_list l2.
Proof.
  induction l1 as [| x l1 IH]; simpl; [lra | rewrite IH; lra].
Qed.

Lemma sum_list_concat (ls : list (list R)) :
  sum_list (concat ls) = sum_list (map sum_list ls).
Proof.
  induction ls as [| l ls IH]; simpl; [reflexivity |].
  rewrite sum_list_app, IH. reflexivity.
Qed.

Lemma length_concat_uniform (n : nat) (ls : list (list R)) :
  Forall (fun l => length l = n) ls -> length (concat ls) = (length ls * n)%nat.
Proof.
  induction 1 as [| l ls Hl _ IH]; simpl; [reflexivity |].
  rewrite length_app, IH, Hl. reflexivity.
Qed.

Lemma sum_list_scaled (c : R) (l : list R) :
  sum_list (map (fun x => x * c) l) = sum_list l * c.
Proof.
  induction l as [| x l IH]; simpl; [lra | rewrite IH; lra].
Qed.

(** The mean of the means of tensors of one size is the mean of all their
    entries. *)
Lemma mean_of_means_uniform (n : nat) (ls : list (list R)) :
  (0 < n)%nat -> ls <> [] ->
  Forall (fun l => length l = n) ls ->
  tf_reduce_mean (map tf_reduce_mean ls) = tf_reduce_mean (concat ls).
Proof.
  intros Hn Hne Hall. unfold tf_reduce_mean at 1 3.
  rewrite sum_list_concat, length_map, (length_concat_uniform n) by exact Hall.
  assert (Hmeans : map tf_reduce_mean ls = map (fun x => x * / INR n) (map sum_list ls)).
  { rewrite map_map. apply map_ext_in. intros l Hin.
    unfold tf_reduce_mean, Rdiv.
    rewrite Forall_forall in Hall. rewrite (Hall l Hin). reflexivity. }
  rewrite Hmeans, sum_list_scaled, mult_INR.
  assert (Hn' : INR n <> 0) by (apply not_0_INR; lia).
  assert (Hk : INR (length ls) <> 0).
  { apply not_0_INR. destruct ls; [congruence | simpl; lia]. }
  field. split; assumption.
Qed.

Lemma combine_map_l {A B C : Type} (f : A -> B) (l : list A) (l' : list C) :
  combine (map f l) l' = map (fun p => (f (fst p), snd p)) (combine l l').
Proof.
  revert l'. induction l as [| a l IH]; intros [| c l']; simpl; try reflexivity.
  rewrite IH. reflexivity.
Qed.



Example argmax_row_ties : argmax_row [1; 3; 3; 2] = 1%Z.
Proof.
  unfold argmax_row. simpl.
  repeat (destruct (Rlt_dec _ _); try lra). reflexivity.
Qed.

(** ** Global-norm clipping *)

Lemma sum_list_squares_nonneg (t : list R) : 0 <= sum_list (map (fun x => x * x) t).
Proof.
  induction t as [| x t IH]; simpl; [lra | nra].
Qed.

Lemma sum_squares_nonneg (ts : list (option (list R))) : 0 <= sum_squares ts.
Proof.
  induction ts as [| [t |] ts IH]; simpl; try lra.
  pose proof (sum_list_squares_nonneg t). lra.
Qed.

Lemma sum_squares_scaled (c : R) (ts : list (option (list R))) :
  sum_squares (map (option_map (map (fun x => x * c))) ts) = c * c * sum_squares ts.
Proof.
  induction ts as [| [t |] ts IH]; simpl; try lra.
  rewrite IH, map_map.
  rewrite (map_ext (fun x => x * c * (x * c)) (fun x => x * x * (c * c)))
    by (intros; ring).
  rewrite <- (map_map (fun x => x * x) (fun y => y * (c * c))), sum_list_scaled.
  ring.
Qed.

Lemma run_all_clipped (ts : list (option (tensor (list R)))) (clip : R) (s : session) :
  run_all (fst (tf_clip_by_global_norm ts clip)) s
  = map (option_map (map (fun x => x * (clip / Rmax (tf_global_norm ts s) clip))))
        (run_all ts s).
Proof.
  unfold tf_clip_by_global_norm, run_all. simpl. rewrite !map_map.
  apply map_ext. intros [t |]; simpl; [| reflexivity].
  f_equal. apply map_ext. intros x. unfold Rdiv. ring.
Qed.

Lemma global_norm_nonneg (ts : list (option (tensor (list R)))) (s : session) :
  0 <= tf_global_norm ts s.
Proof. unfold tf_global_norm. apply sqrt_pos. Qed.

(** What [tf.clip_by_global_norm] does for a positive threshold: the norm it
    returns is that of its input; the norm of the list it returns is the
    smaller of the two. *)
Lemma clip_by_global_norm_spec (ts : list (option (tensor (list R)))) (clip : R)
  (s : session) :
  0 < clip ->
  snd (tf_clip_by_global_norm ts clip) s = tf_global_norm ts s /\
  tf_global_norm (fst (tf_clip_by_global_norm ts clip)) s <= clip /\
  (clip < tf_global_norm ts s ->
   tf_global_norm (fst (tf_clip_by_global_norm ts clip)) s = clip) /\
  (tf_global_norm ts s <= clip ->
   run_all (fst (tf_clip_by_global_norm ts clip)) s = run_all ts s).
Proof.
  intros Hclip.
  pose proof (global_norm_nonneg ts s) as Hraw.
  set (raw := tf_global_norm ts s) in *.
  set (c := clip / Rmax raw clip).
  assert (Hmax : 0 < Rmax raw clip).
  { apply Rlt_le_trans with clip; [exact Hclip | apply Rmax_r]. }
  assert (Hc : 0 < c).
  { unfold c. apply Rdiv_lt_0_compat; assumption. }
  assert (Hpost : tf_global_norm (fst (tf_clip_by_global_norm ts clip)) s = c * raw).
  { unfold tf_global_norm at 1. rewrite run_all_clipped. fold raw. fold c.
    rewrite sum_squares_scaled.
    rewrite sqrt_mult by (try apply sum_squares_nonneg; nra).
    rewrite sqrt_square by lra. reflexivity. }
  split; [reflexivity |].
  destruct (Rle_dec raw clip) as [Hle | Hgt].
  - assert (Hone : c = 1).
    { unfold c. rewrite Rmax_right by exact Hle. field. lra. }
    repeat split.
    + rewrite Hpost, Hone. lra.
    + intros Habs. lra.
    + intros _. rewrite run_all_clipped. fold raw. fold c. rewrite Hone.
      rewrite <- (map_id (run_all ts s)) at 2. apply map_ext.
      intros [t |]; simpl; [| reflexivity].
      f_equal. rewrite <- (map_id t) at 2. apply map_ext. intros x. lra.
  - assert (Hcr : c * raw = clip).
    { unfold c. rewrite Rmax_left by lra. field. lra. }
    repeat split.
    + rewrite Hpost, Hcr. lra.
    + intros _. rewrite Hpost. exact Hcr.
    + intros Habs. lra.
Qed.

(** ** Logarithms for the bits diagnostic *)

Lemma ln_2_pos : 0 < ln 2.
Proof. rewrite <- ln_1. apply ln_increasing; lra. Qed.

Lemma ln_half : ln (1 / 2) = - ln 2.
Proof.
  replace (1 / 2) with (/ 2) by lra. apply ln_Rinv. lra.
Qed.

(** ** The constructor *)

Lemma ramp_and_clip_in_constructor (g : graph) :
  let pi := fun s : session =>
    1 / 1000 + (1 / 10 - 1 / 1000) *
      tf_clip_by_value (1 / (20000 - 3000) * (IZR (sess_global_step s) - 3000)) 0 1 in
  ramp_and_clip (1 / 1000) (1 / 10) 3000 20000 PyNone g
  = (Ok pi, with_pi_summary g pi).
Proof. apply ramp_and_clip_counter; [lra | reflexivity]. Qed.

(** Runs the constructor on a symbolic graph, up to the test on
    [conf.clip_norm]. *)
Ltac run_body :=
  cbv beta iota zeta delta
    [bind ret lift add_CNN softmax_layer new_layer tf_summary_histogram
     add_summary has_global_step coll_all_sigma coll_random_mean
     coll_restore_vars summaries trainable];
  rewrite ramp_and_clip_in_constructor;
  cbv beta iota zeta delta
    [bind ret lift tf_trainable_variables add_tensorboard_summaries
     tf_summary_scalar add_summary tf_get_collection_all_sigma
     tf_get_collection_random_mean tf_summary_histogram tf_summary_merge_all
     add_to_collections add_all_to_restore_vars
     tf_add_to_collection_restore_vars with_pi_summary
     has_global_step coll_all_sigma coll_random_mean coll_restore_vars
     summaries trainable].

Ltac run_constructor := unfold Model__init__; run_body.

Ltac constructed :=
  run_constructor;
  match goal with
  | |- context [Rlt_dec 0 (clip_norm ?c)] =>
      destruct (Rlt_dec 0 (clip_norm c)) as [Hclip | Hnoclip]
  end;
  (eexists; eexists; eexists; split; [reflexivity |]);
  cbn [x_placeholder y_placeholder prior is_time_series layers predictions
       loss kl_loss train_op accuracy all_sigma all_SNR total_bits summary_op
       cnn_or_rnn_outputs logits num_batches pi total_loss tvars raw_grads
       grads grads_norm sigma_collection
       has_global_step coll_all_sigma coll_random_mean coll_restore_vars
       summaries trainable fst snd tf_clip_by_global_norm].

Section ModelProperties.

Context {backend : Backend}.

(** C8: the constructor appends five tensors to 'restore_vars', in the
    order input placeholder, target placeholder, predictions, classification
    loss, accuracy; on a registry that was empty these are all its entries,
    and each is read back at its position. *)
Theorem restore_vars_registered (conf : config) (num_classes : nat)
  (size_sample : list nat) (g : graph) :
  exists m loc g',
    Model__init__ conf num_classes size_sample g = (Ok (m, loc), g') /\
    coll_restore_vars g' =
      coll_restore_vars g ++
      [Batch (x_placeholder m); Labels (y_placeholder m); Batch (predictions m);
       Scalar (loss m); Scalar (accuracy m)] /\
    length (coll_restore_vars g') = (length (coll_restore_vars g) + 5)%nat /\
    (coll_restore_vars g = [] ->
     nth_error (coll_restore_vars g') 0 = Some (Batch (x_placeholder m)) /\
     nth_error (coll_restore_vars g') 1 = Some (Labels (y_placeholder m)) /\
     nth_error (coll_restore_vars g') 2 = Some (Batch (predictions m)) /\
     nth_error (coll_restore_vars g') 3 = Some (Scalar (loss m)) /\
     nth_error (coll_restore_vars g') 4 = Some (Scalar (accuracy m)) /\
     nth_error (coll_restore_vars g') 5 = None).
Proof.
  constructed.
  all: rewrite <- !app_assoc; simpl app.
  all: split; [reflexivity |].
  all: split; [rewrite length_app; reflexivity |].
  all: intros ->; repeat split; reflexivity.
Qed.

Lemma sum_exp_pos (row : list R) : row <> [] -> 0 < sum_list (map exp row).
Proof.
  destruct row as [| x l]; [congruence | intros _]. simpl.
  assert (Hl : 0 <= sum_list (map exp l)).
  { induction l as [| y l IH]; simpl; [lra |].
    pose proof (exp_pos y). lra. }
  pose proof (exp_pos x). lra.
Qed.

(** For a label inside the row the cross entropy is the logarithm of the sum
    of the exponentials minus the logit of the label. *)
Lemma xent_row_log_sum_exp (row : list R) (label : Z) :
  (Z.to_nat label < length row)%nat ->
  xent_row row label
  = ln (sum_list (map exp row)) - nth (Z.to_nat label) row 0.
Proof.
  intros Hin. unfold xent_row, softmax_row.
  assert (Hrow : row <> []) by (destruct row; simpl in Hin; [lia | congruence]).
  pose proof (sum_exp_pos row Hrow) as Hpos.
  rewrite (nth_indep _ 0 (exp 0 / sum_list (map exp row)))
    by (rewrite length_map; exact Hin).
  rewrite (map_nth (fun x => exp x / sum_list (map exp row)) row 0).
  unfold Rdiv.
  rewrite ln_mult by (try apply exp_pos; apply Rinv_0_lt_compat; exact Hpos).
  rewrite ln_exp, ln_Rinv by exact Hpos. lra.
Qed.


(** C6: whatever [size_sample] is, the constructor runs [add_CNN] and no
    recurrent cell enters the layer list; the encoder output is the third of
    three stride-3 convolutions, chained and then flattened, and the logits
    are the softmax layer applied to it; the first convolution is applied
    to the placeholder with two axes of size one appended (rank 4) when
    [size_sample] has one entry, and to the placeholder itself otherwise. *)
Theorem constructor_builds_cnn (conf : config) (num_classes : nat)
  (size_sample : list nat) (g : graph) :
  exists m loc g',
    Model__init__ conf num_classes size_sample g = (Ok (m, loc), g') /\
    (exists g1,
       add_CNN conf (x_placeholder m) (prior m) (is_time_series m) [] g
       = (Ok (cnn_or_rnn_outputs loc, firstn 3 (layers m)), g1)) /\
    existsb is_lstm (layers m) = false /\
    map is_conv (layers m) = [true; true; true; false] /\
    map layer_stride (layers m) = [Some 3; Some 3; Some 3; None]%nat /\
    is_time_series m = (length size_sample =? 1)%nat /\
    bt_shape (add_CNN_inputs (x_placeholder m) (is_time_series m)) =
      (if (length size_sample =? 1)%nat
       then None :: map Some size_sample ++ [Some 1; Some 1]%nat
       else None :: map Some size_sample) /\
    bt_rows (add_CNN_inputs (x_placeholder m) (is_time_series m)) = sess_input /\
    (length size_sample = 1%nat ->
     length (bt_shape (add_CNN_inputs (x_placeholder m) (is_time_series m))) = 4%nat) /\
    (length size_sample <> 1%nat ->
     add_CNN_inputs (x_placeholder m) (is_time_series m) = x_placeholder m) /\
    x_placeholder m = input_placeholder size_sample /\
    (let conv name filters :=
       BayesianConvCell name filters (get_filter_shape conf (is_time_series m))
         3 (prior m) selu in
     let conv1 := conv "conv1" (fst (fst (num_filters conf))) in
     let conv2 := conv "conv2" (snd (fst (num_filters conf))) in
     let conv3 := conv "conv3" (snd (num_filters conf)) in
     let softmaxlayer := SoftmaxLayer num_classes (prior m) in
     let inputs :=
       if (length size_sample =? 1)%nat
       then tf_expand_dims (tf_expand_dims (input_placeholder size_sample) 2) 3
       else input_placeholder size_sample in
     let hidden1 := layer_call conv1 inputs in
     let hidden2 := layer_call conv2 hidden1 in
     let hidden3 := layer_call conv3 hidden2 in
     layers m = [conv1; conv2; conv3; softmaxlayer] /\
     cnn_or_rnn_outputs loc
       = tf_reshape_rows hidden3 (num_elements (tl (bt_shape hidden3))) /\
     logits loc = layer_call softmaxlayer (cnn_or_rnn_outputs loc) /\
     In (summary_histogram "Layer1" (Batch hidden1) (Some "activations"))
        (summaries g')).
Proof.
  constructed.
  all: split; [eexists; reflexivity |].
  all: do 4 (split; [reflexivity |]).
  all: cbv zeta.
  all: assert (Hsum : forall (pre : list summary) (x : summary) (post : list summary),
                 In x (pre ++ x :: post))
         by (intros; apply in_or_app; right; left; reflexivity).
  all: destruct size_sample as [| d [| d' rest]]; simpl.
  all: repeat split; try reflexivity; try congruence; try (intros; lia).
  all: rewrite <- !app_assoc; simpl app; apply Hsum.
Qed.


(** C2 (as amended): the training operation is built from the clipped list
    when [conf.clip_norm > 0], whose global norm is then at most the
    threshold (the threshold itself when the raw norm exceeded it, the raw
    list when it did not), and from the raw list otherwise; the scalar
    recorded as "grads_norm" is in both cases the global norm of the raw,
    unclipped gradients. *)
Theorem gradient_clipping (conf : config) (num_classes : nat)
  (size_sample : list nat) (g : graph) :
  exists m loc g',
    Model__init__ conf num_classes size_sample g = (Ok (m, loc), g') /\
    op_grads (train_op m) = grads loc /\
    raw_grads loc = tf_gradients (total_loss loc) (tvars loc) /\
    In (summary_scalar "grads_norm" (grads_norm loc) (Some "summaries"))
       (summaries g') /\
    (forall s, grads_norm loc s = tf_global_norm (raw_grads loc) s) /\
    (0 < clip_norm conf ->
     forall s,
       tf_global_norm (grads loc) s <= clip_norm conf /\
       (clip_norm conf < tf_global_norm (raw_grads loc) s ->
        tf_global_norm (grads loc) s = clip_norm conf) /\
       (tf_global_norm (raw_grads loc) s <= clip_norm conf ->
        run_all (grads loc) s = run_all (raw_grads loc) s)) /\
    (clip_norm conf <= 0 -> grads loc = raw_grads loc).
Proof.
  constructed.
  all: split; [reflexivity |].
  all: split; [reflexivity |].
  all: split; [rewrite !in_app_iff; simpl; tauto |].
  all: split; [intros s; reflexivity |].
  - split; [| intros Habs; lra].
    intros _ s.
    match goal with
    | |- context [tf_global_norm (tf_gradients ?l ?v) s] =>
        exact (proj2 (clip_by_global_norm_spec (tf_gradients l v) (clip_norm conf) s Hclip))
    end.
  - split; [intros Habs; contradiction | intros _; reflexivity].
Qed.

Lemma total_bits_of_mean_of_means (sigmas : list (tensor (list R))) (s : session) :
  total_bits_of sigmas s
  = - ln (tf_reduce_mean (map (fun v : tensor (list R) => tf_reduce_mean (v s)) sigmas)) / ln 2.
Proof.
  unfold total_bits_of. rewrite fold_left_tensor_sum.
  unfold tf_reduce_mean at 2. rewrite length_map, Rplus_0_l. reflexivity.
Qed.

Lemma total_bits_of_uniform (sigmas : list (tensor (list R))) (s : session) (n : nat) :
  (0 < n)%nat -> sigmas <> [] ->
  Forall (fun v : tensor (list R) => length (v s) = n) sigmas ->
  total_bits_of sigmas s
  = spec_total_bits (map (fun v : tensor (list R) => v s) sigmas).
Proof.
  intros Hn Hne Hall. rewrite total_bits_of_mean_of_means. unfold spec_total_bits.
  rewrite <- (mean_of_means_uniform n).
  - rewrite map_map. reflexivity.
  - exact Hn.
  - destruct sigmas; [congruence | discriminate].
  - rewrite Forall_map. exact Hall.
Qed.

Lemma total_bits_half_one_tensor (s : session) :
  total_bits_of [fun _ => [1 / 2; 1 / 2]] s = 1.
Proof.
  pose proof ln_2_pos. rewrite total_bits_of_mean_of_means.
  replace (tf_reduce_mean (map (fun v : tensor (list R) => tf_reduce_mean (v s))
             [fun _ => [1 / 2; 1 / 2]])) with (1 / 2)
    by (unfold tf_reduce_mean; simpl; lra).
  rewrite ln_half. field. lra.
Qed.

Lemma total_bits_half_two_tensors (s : session) :
  total_bits_of [fun _ => [1 / 2]; fun _ => [1 / 2]] s = 1.
Proof.
  pose proof ln_2_pos. rewrite total_bits_of_mean_of_means.
  replace (tf_reduce_mean (map (fun v : tensor (list R) => tf_reduce_mean (v s))
             [fun _ => [1 / 2]; fun _ => [1 / 2]])) with (1 / 2)
    by (unfold tf_reduce_mean; simpl; lra).
  rewrite ln_half. field. lra.
Qed.

Lemma total_bits_one (s : session) :
  total_bits_of [fun _ => [1; 1]] s = 0.
Proof.
  pose proof ln_2_pos. rewrite total_bits_of_mean_of_means.
  replace (tf_reduce_mean (map (fun v : tensor (list R) => tf_reduce_mean (v s))
             [fun _ => [1; 1]])) with 1
    by (unfold tf_reduce_mean; simpl; lra).
  rewrite ln_1. field. lra.
Qed.

(** C3 (as amended): the total bits are minus the base-2 logarithm of the
    mean, over the tensors of 'all_sigma', of the mean of each tensor; this
    is the mean of every scale entry when all the tensors have one size.
    Scales (0.5, 0.5) give 1 and scales (1, 1) give 0. *)
Theorem total_bits_mean_of_means (conf : config) (num_classes : nat)
  (size_sample : list nat) (g : graph) :
  exists m loc g',
    Model__init__ conf num_classes size_sample g = (Ok (m, loc), g') /\
    sigma_collection loc
      = coll_all_sigma g ++ concat (map layer_sigma (layers m)) /\
    In (summary_scalar "Total bits" (total_bits m) None) (summaries g') /\
    (forall s,
       total_bits m s =
         - ln (tf_reduce_mean
                 (map (fun v : tensor (list R) => tf_reduce_mean (v s))
                      (sigma_collection loc))) / ln 2) /\
    (forall s n,
       (0 < n)%nat -> sigma_collection loc <> [] ->
       Forall (fun v : tensor (list R) => length (v s) = n) (sigma_collection loc) ->
       total_bits m s
       = spec_total_bits (map (fun v : tensor (list R) => v s) (sigma_collection loc))) /\
    (forall s, total_bits_of [fun _ => [1 / 2; 1 / 2]] s = 1) /\
    (forall s, total_bits_of [fun _ => [1 / 2]; fun _ => [1 / 2]] s = 1) /\
    (forall s, total_bits_of [fun _ => [1; 1]] s = 0).
Proof.
  pose proof ln_2_pos as Hln2.
  constructed.
  all: split; [simpl; rewrite app_nil_r, <- !app_assoc; reflexivity |].
  all: split; [rewrite !in_app_iff; simpl; tauto |].
  all: split; [intros s; apply total_bits_of_mean_of_means |].
  all: split; [intros s k; apply total_bits_of_uniform |].
  all: repeat split; intros s.
  all: first [apply total_bits_half_one_tensor | apply total_bits_half_two_tensors
             | apply total_bits_one].
Qed.

(** C7 (as amended): [conf.max_steps] is read into the local [num_batches]
    and nothing else depends on it: with another step budget the constructor
    builds the same model and the same graph, and the weight of the KL loss
    is the annealed [pi], a function of the step counter alone. *)
Theorem kl_weight_ignores_max_steps (conf : config) (n : Z) (num_classes : nat)
  (size_sample : list nat) (g : graph) :
  exists m loc loc' g',
    Model__init__ conf num_classes size_sample g = (Ok (m, loc), g') /\
    Model__init__ (with_max_steps conf n) num_classes size_sample g
      = (Ok (m, loc'), g') /\
    num_batches loc = max_steps conf /\
    num_batches loc' = n /\
    pi loc' = pi loc /\
    total_loss loc' = total_loss loc /\
    (forall s, total_loss loc s = loss m s + pi loc s * kl_loss m s) /\
    (forall s,
       pi loc s = 1 / 1000 + (1 / 10 - 1 / 1000) *
         tf_clip_by_value (1 / (20000 - 3000) * (IZR (sess_global_step s) - 3000)) 0 1).
Proof.
  unfold Model__init__, add_CNN.
  cbn [with_max_steps sigma_prior max_steps clip_norm optimizer_name
       num_filters get_filter_shape].
  run_body.
  destruct (Rlt_dec 0 (clip_norm conf)) as [Hclip | Hnoclip].
  all: eexists; eexists; eexists; eexists.
  all: split; [reflexivity |].
  all: split; [reflexivity |].
  all: repeat split; reflexivity.
Qed.

(** ** Predictions, loss and accuracy as numbers *)

Lemma exp_le_sum_exp (row : list R) (x : R) :
  In x row -> exp x <= sum_list (map exp row).
Proof.
  induction row as [| y row IH]; simpl; [tauto |].
  assert (Hrest : 0 <= sum_list (map exp row)).
  { clear. induction row as [| z row IH]; simpl; [lra |].
    pose proof (exp_pos z). lra. }
  pose proof (exp_pos y).
  intros [-> | Hin]; [lra | specialize (IH Hin); lra].
Qed.

Lemma softmax_row_entries (row : list R) :
  Forall (fun p => 0 < p <= 1) (softmax_row row).
Proof.
  unfold softmax_row. rewrite Forall_map, Forall_forall. intros x Hin.
  assert (Hrow : row <> []) by (destruct row; [destruct Hin | congruence]).
  pose proof (sum_exp_pos row Hrow) as Hpos.
  pose proof (exp_le_sum_exp row x Hin) as Hle.
  pose proof (exp_pos x) as Hx.
  split.
  - apply Rdiv_lt_0_compat; assumption.
  - apply Rmult_le_reg_r with (sum_list (map exp row)); [exact Hpos |].
    unfold Rdiv. rewrite Rmult_assoc, Rinv_l by lra. lra.
Qed.

Lemma softmax_row_sum (row : list R) :
  row <> [] -> sum_list (softmax_row row) = 1.
Proof.
  intros Hrow. pose proof (sum_exp_pos row Hrow) as Hpos.
  unfold softmax_row.
  rewrite <- (map_map exp (fun y => y * / sum_list (map exp row))).
  rewrite sum_list_scaled. apply Rinv_r. lra.
Qed.

Lemma xent_row_nonneg (row : list R) (label : Z) :
  (Z.to_nat label < length row)%nat -> 0 <= xent_row row label.
Proof.
  intros Hin. unfold xent_row.
  assert (Hp : 0 < nth (Z.to_nat label) (softmax_row row) 0 <= 1).
  { pose proof (softmax_row_entries row) as Hall.
    rewrite Forall_forall in Hall. apply Hall, nth_In.
    unfold softmax_row. rewrite length_map. exact Hin. }
  destruct Hp as [Hp0 [Hp1 | Hp1]].
  - pose proof (ln_increasing _ _ Hp0 Hp1) as Hln. rewrite ln_1 in Hln. lra.
  - rewrite Hp1, ln_1. lra.
Qed.

Lemma sum_list_bounds (lo hi : R) (l : list R) :
  Forall (fun x => lo <= x <= hi) l ->
  lo * INR (length l) <= sum_list l <= hi * INR (length l).
Proof.
  induction 1 as [| x l Hx _ IH].
  - simpl. lra.
  - change (length (x :: l)) with (S (length l)). rewrite S_INR. simpl. lra.
Qed.

(** The mean of a non-empty list lies between bounds of its entries. *)
Lemma reduce_mean_bounds (lo hi : R) (l : list R) :
  l <> [] -> Forall (fun x => lo <= x <= hi) l ->
  lo <= tf_reduce_mean l <= hi.
Proof.
  intros Hne Hall. pose proof (sum_list_bounds lo hi l Hall) as Hsum.
  assert (Hn : 0 < INR (length l)).
  { apply lt_0_INR. destruct l; [congruence | simpl; lia]. }
  assert (Hi : 0 < / INR (length l)) by (apply Rinv_0_lt_compat; exact Hn).
  assert (Hone : INR (length l) * / INR (length l) = 1) by (apply Rinv_r; lra).
  unfold tf_reduce_mean, Rdiv. split.
  - apply Rmult_le_reg_r with (INR (length l)); [exact Hn |].
    rewrite Rmult_assoc, Rinv_l by lra. lra.
  - apply Rmult_le_reg_r with (INR (length l)); [exact Hn |].
    rewrite Rmult_assoc, Rinv_l by lra. lra.
Qed.

Lemma reduce_mean_nonneg (l : list R) :
  l <> [] -> Forall (fun x => 0 <= x) l -> 0 <= tf_reduce_mean l.
Proof.
  intros Hne Hall.
  assert (Hn : 0 < INR (length l)).
  { apply lt_0_INR. destruct l; [congruence | simpl; lia]. }
  assert (Hsum : 0 <= sum_list l).
  { induction Hall as [| x l' Hx _ IH]; simpl; [lra |].
    destruct l' as [| y l'']; [simpl; lra |].
    assert (0 <= sum_list (y :: l'')).
    { apply IH; [congruence | apply lt_0_INR; simpl; lia]. }
    lra. }
  unfold tf_reduce_mean. apply Rmult_le_pos; [exact Hsum |].
  apply Rlt_le, Rinv_0_lt_compat, Hn.
Qed.

(** X6: every row of the predictions has entries in (0, 1], and a row of at
    least one class sums to 1; the predictions have the static shape and the
    number of rows of the logits. *)
Theorem predictions_are_distributions (conf : config) (num_classes : nat)
  (size_sample : list nat) (g : graph) :
  exists m loc g',
    Model__init__ conf num_classes size_sample g = (Ok (m, loc), g') /\
    bt_shape (predictions m) = bt_shape (logits loc) /\
    forall s,
      length (bt_rows (predictions m) s) = length (bt_rows (logits loc) s) /\
      forall row,
        In row (bt_rows (predictions m) s) ->
        Forall (fun p => 0 < p <= 1) row /\
        (row <> [] -> sum_list row = 1).
Proof.
  constructed.
  all: split; [reflexivity |].
  all: intros s; simpl; split; [apply length_map |].
  all: intros row Hin; apply in_map_iff in Hin; destruct Hin as (lrow & <- & _).
  all: split; [apply softmax_row_entries |].
  all: intros Hne; apply softmax_row_sum.
  all: intros ->; apply Hne; reflexivity.
Qed.

(** X7: on a non-empty batch whose targets are positions inside their rows
    of logits the classification loss is not negative. *)
Theorem classification_loss_nonneg (conf : config) (num_classes : nat)
  (size_sample : list nat) (g : graph) :
  exists m loc g',
    Model__init__ conf num_classes size_sample g = (Ok (m, loc), g') /\
    forall s,
      combine (bt_rows (logits loc) s) (sess_target s) <> [] ->
      Forall (fun rl : list R * Z =>
                (0 <= snd rl < Z.of_nat (length (fst rl)))%Z)
             (combine (bt_rows (logits loc) s) (sess_target s)) ->
      0 <= loss m s.
Proof.
  constructed.
  all: intros s Hne Hin; unfold tf_sparse_softmax_cross_entropy_with_logits.
  all: apply reduce_mean_nonneg;
    [ intros Hmap; apply map_eq_nil in Hmap; exact (Hne Hmap) |].
  all: rewrite Forall_map; eapply Forall_impl; [| exact Hin].
  all: intros [row label] Hl; simpl in *; apply xent_row_nonneg; lia.
Qed.

(** X8: on a non-empty batch the accuracy lies between 0 and 1. *)
Theorem accuracy_in_unit_interval (conf : config) (num_classes : nat)
  (size_sample : list nat) (g : graph) :
  exists m loc g',
    Model__init__ conf num_classes size_sample g = (Ok (m, loc), g') /\
    forall s,
      combine (bt_rows (logits loc) s) (sess_target s) <> [] ->
      0 <= accuracy m s <= 1.
Proof.
  constructed.
  all: intros s Hne; unfold tf_cast_bool, tf_equal, tf_argmax, target_placeholder.
  all: rewrite combine_map_l, !map_map.
  all: apply reduce_mean_bounds;
    [ intros Hmap; apply map_eq_nil in Hmap; exact (Hne Hmap) |].
  all: rewrite Forall_map, Forall_forall; intros [row label] _; simpl.
  all: destruct (argmax_row row =? label)%Z; lra.
Qed.

(** X9: the constructor creates the step counter and records nine summaries
    behind those already in the graph, in the order Layer1, pi, loss,
    kl_loss, grads_norm, accuracy, Sigmas, snr, Total bits; the merged
    summary operation holds all the summaries of the graph, these nine
    included. *)
Theorem constructor_summaries (conf : config) (num_classes : nat)
  (size_sample : list nat) (g : graph) :
  exists m loc g',
    Model__init__ conf num_classes size_sample g = (Ok (m, loc), g') /\
    has_global_step g' = true /\
    summary_op m = summaries g' /\
    summaries g' =
      summaries g ++
      [summary_histogram "Layer1"
         (Batch (layer_call
                   (BayesianConvCell "conv1" (fst (fst (num_filters conf)))
                      (get_filter_shape conf (is_time_series m)) 3 (prior m) selu)
                   (add_CNN_inputs (x_placeholder m) (is_time_series m))))
         (Some "activations");
       summary_scalar "pi" (pi loc) (Some "summaries");
       summary_scalar "loss" (loss m) (Some "summaries");
       summary_scalar "kl_loss" (kl_loss m) (Some "summaries");
       summary_scalar "grads_norm" (grads_norm loc) (Some "summaries");
       summary_scalar "accuracy" (accuracy m) (Some "summaries");
       summary_histogram "Sigmas" (Flat (all_sigma m)) (Some "sigmas");
       summary_histogram "snr" (Flat (all_SNR m)) (Some "SNR");
       summary_scalar "Total bits" (total_bits m) None].
Proof.
  constructed.
  all: split; [reflexivity |].
  all: split; [reflexivity |].
  all: rewrite <- !app_assoc; reflexivity.
Qed.

(** X10: the training operation names [conf.optimizer_name] and pairs one
    gradient entry per raw gradient with the variables that were trainable
    in the graph followed by those of the four layers, in layer order; the
    constructor adds no other trainable variable. *)
Theorem train_op_wiring (conf : config) (num_classes : nat)
  (size_sample : list nat) (g : graph) :
  exists m loc g',
    Model__init__ conf num_classes size_sample g = (Ok (m, loc), g') /\
    op_optimizer (train_op m) = optimizer_name conf /\
    op_tvars (train_op m) = tvars loc /\
    tvars loc = trainable g ++ concat (map layer_variables (layers m)) /\
    trainable g' = tvars loc /\
    length (op_grads (train_op m)) = length (raw_grads loc).
Proof.
  constructed.
  all: split; [reflexivity |].
  all: split; [reflexivity |].
  all: split; [simpl; rewrite app_nil_r, <- !app_assoc; reflexivity |].
  all: split; [reflexivity |].
  all: cbn [op_grads]; rewrite ?length_map; reflexivity.
Qed.

(** X11: when [conf.clip_norm > 0] the gradients of the training operation
    are the raw gradients all multiplied by one factor in (0, 1], with the
    entries that are [None] left [None]. *)
Theorem clipping_is_uniform_scaling (conf : config) (num_classes : nat)
  (size_sample : list nat) (g : graph) :
  0 < clip_norm conf ->
  exists m loc g',
    Model__init__ conf num_classes size_sample g = (Ok (m, loc), g') /\
    forall s,
      exists c,
        0 < c <= 1 /\
        run_all (op_grads (train_op m)) s
        = map (option_map (map (fun x => x * c))) (run_all (raw_grads loc) s).
Proof.
  intros Hpos. constructed; [| contradiction].
  intros s.
  match goal with
  | |- context [@tf_gradients backend ?l ?v] =>
      set (raw := @tf_gradients backend l v)
  end.
  exists (clip_norm conf / Rmax (tf_global_norm raw s) (clip_norm conf)).
  assert (Hmax : 0 < Rmax (tf_global_norm raw s) (clip_norm conf)).
  { apply Rlt_le_trans with (clip_norm conf); [exact Hpos | apply Rmax_r]. }
  split; [split |].
  - apply Rdiv_lt_0_compat; assumption.
  - apply Rmult_le_reg_r with (Rmax (tf_global_norm raw s) (clip_norm conf));
      [exact Hmax |].
    unfold Rdiv. rewrite Rmult_assoc, Rinv_l by lra.
    pose proof (Rmax_r (tf_global_norm raw s) (clip_norm conf)). lra.
  - exact (run_all_clipped raw (clip_norm conf) s).
Qed.

(** X12: the total bits are positive when the mean of the per-tensor mean
    scales is below 1, zero when it is 1 and negative when it is above 1. *)
Theorem total_bits_sign (conf : config) (num_classes : nat)
  (size_sample : list nat) (g : graph) :
  exists m loc g',
    Model__init__ conf num_classes size_sample g = (Ok (m, loc), g') /\
    forall s,
      let mean_scale :=
        tf_reduce_mean
          (map (fun v : tensor (list R) => tf_reduce_mean (v s))
               (sigma_collection loc)) in
      0 < mean_scale ->
      (mean_scale < 1 -> 0 < total_bits m s) /\
      (mean_scale = 1 -> total_bits m s = 0) /\
      (1 < mean_scale -> total_bits m s < 0).
Proof.
  pose proof ln_2_pos as Hln2.
  assert (Hinv : 0 < / ln 2) by (apply Rinv_0_lt_compat; exact Hln2).
  constructed.
  all: intros s; cbv zeta; rewrite total_bits_of_mean_of_means.
  all: set (mean_scale := tf_reduce_mean _); intros Hpos.
  all: unfold Rdiv; split; [| split]; intros Hcmp.
  all: try (pose proof (ln_increasing _ _ Hpos Hcmp) as Hln; rewrite ln_1 in Hln; nra).
  all: try (rewrite Hcmp, ln_1; ring).
  all: assert (H1 : 0 < 1) by lra;
       pose proof (ln_increasing _ _ H1 Hcmp) as Hln; rewrite ln_1 in Hln; nra.
Qed.

(** ** The methods on their own *)

Lemma append_lstm_cells_run (conf : config) (p : prior_t) (n : nat)
  (self_layers : list layer) (g : graph) :
  let cell := BayesianLSTMCell (hidden_dim conf) p 1 true false in
  append_lstm_cells conf p n self_layers g =
  (Ok (self_layers ++ repeat cell n),
   {| has_global_step := has_global_step g;
      coll_all_sigma := coll_all_sigma g ++ concat (repeat (layer_sigma cell) n);
      coll_random_mean := coll_random_mean g ++ concat (repeat (layer_mean cell) n);
      coll_restore_vars := coll_restore_vars g;
      summaries := summaries g;
      trainable := trainable g ++ concat (repeat (layer_variables cell) n) |}).
Proof.
  intros cell. revert self_layers g.
  induction n as [| n IH]; intros self_layers g.
  - simpl. unfold ret. rewrite !app_nil_r. destruct g; reflexivity.
  - simpl. unfold bind, new_layer. fold cell. rewrite IH. simpl.
    rewrite <- !app_assoc. reflexivity.
Qed.

Lemma rev_head_is_last {A : Type} (l r : list A) (a d : A) :
  rev l = a :: r -> last l d = a.
Proof.
  intros Hrev. assert (Hl : l = rev r ++ [a]).
  { rewrite <- (rev_involutive l), Hrev. reflexivity. }
  rewrite Hl. apply last_last.
Qed.

(** X13: [add_RNN] keeps the layers already in [self.layers] and appends
    [conf.num_layers] cells BayesianLSTMCell(hidden_dim, prior, 1.0, True,
    False); the whole list is unrolled and the output of the last time step
    is returned; the cells' tensors are registered and no summary is
    recorded. *)
Theorem add_RNN_layers (conf : config) (x : batch_tensor) (p : prior_t)
  (self_layers : list layer) (g : graph) :
  let cell := BayesianLSTMCell (hidden_dim conf) p 1 true false in
  let cells := repeat cell (num_layers conf) in
  let outputs :=
    tf_static_rnn (self_layers ++ cells) (tf_unstack (tf_expand_dims x 1) 2) in
  outputs <> [] ->
  exists g1,
    add_RNN conf x p self_layers g
      = (Ok (last outputs x, self_layers ++ cells), g1) /\
    summaries g1 = summaries g /\
    has_global_step g1 = has_global_step g /\
    coll_restore_vars g1 = coll_restore_vars g /\
    coll_all_sigma g1
      = coll_all_sigma g ++ concat (repeat (layer_sigma cell) (num_layers conf)) /\
    coll_random_mean g1
      = coll_random_mean g ++ concat (repeat (layer_mean cell) (num_layers conf)) /\
    trainable g1
      = trainable g ++ concat (repeat (layer_variables cell) (num_layers conf)).
Proof.
  intros cell cells outputs Hne.
  unfold add_RNN, bind. rewrite append_lstm_cells_run.
  fold cell. fold cells. fold outputs.
  destruct (rev outputs) as [| o r] eqn:Hrev.
  - exfalso. apply Hne. rewrite <- (rev_involutive outputs), Hrev. reflexivity.
  - rewrite (rev_head_is_last outputs r o x Hrev).
    eexists. split; [reflexivity |]. repeat split; reflexivity.
Qed.

(** X14: [add_CNN] keeps the layers already in [self.layers] and appends
    conv1, conv2, conv3 in this order, each applied to the output of the one
    before; its result is the third output with static shape [None, F]; it
    registers the three layers' tensors in layer order and records the
    single histogram 'Layer1', of the first output. *)
Theorem add_CNN_effect (conf : config) (x : batch_tensor) (p : prior_t)
  (time_series : bool) (self_layers : list layer) (g : graph) :
  let conv n k := BayesianConvCell n k (get_filter_shape conf time_series) 3 p selu in
  let conv1 := conv "conv1" (fst (fst (num_filters conf))) in
  let conv2 := conv "conv2" (snd (fst (num_filters conf))) in
  let conv3 := conv "conv3" (snd (num_filters conf)) in
  let hidden1 := layer_call conv1 (add_CNN_inputs x time_series) in
  let hidden3 := layer_call conv3 (layer_call conv2 hidden1) in
  exists outputs g1,
    add_CNN conf x p time_series self_layers g
      = (Ok (outputs, self_layers ++ [conv1; conv2; conv3]), g1) /\
    bt_shape outputs = [None; num_elements (tl (bt_shape hidden3))] /\
    bt_rows outputs = bt_rows hidden3 /\
    summaries g1
      = summaries g ++ [summary_histogram "Layer1" (Batch hidden1) (Some "activations")] /\
    has_global_step g1 = has_global_step g /\
    coll_restore_vars g1 = coll_restore_vars g /\
    coll_all_sigma g1
      = coll_all_sigma g ++ layer_sigma conv1 ++ layer_sigma conv2 ++ layer_sigma conv3 /\
    coll_random_mean g1
      = coll_random_mean g ++ layer_mean conv1 ++ layer_mean conv2 ++ layer_mean conv3 /\
    trainable g1
      = trainable g ++ layer_variables conv1 ++ layer_variables conv2
          ++ layer_variables conv3.
Proof.
  cbv zeta.
  unfold add_CNN.
  cbv beta iota zeta delta
    [bind ret new_layer tf_summary_histogram add_summary has_global_step
     coll_all_sigma coll_random_mean coll_restore_vars summaries trainable].
  eexists; eexists. split; [rewrite <- !app_assoc; reflexivity |].
  cbn [has_global_step coll_all_sigma coll_random_mean coll_restore_vars
       summaries trainable].
  rewrite <- ?app_assoc.
  repeat split; reflexivity.
Qed.

Lemma snr_of_nonneg (mean sig : tensor (list R)) (s : session) :
  Forall (fun x => 0 < x) (sig s) -> Forall (fun x => 0 <= x) (snr_of mean sig s).
Proof.
  intros Hsig. unfold snr_of. rewrite Forall_map, Forall_forall.
  intros [a b] Hin. simpl.
  apply in_combine_r in Hin. rewrite Forall_forall in Hsig.
  specialize (Hsig b Hin). pose proof (Rabs_pos a).
  apply Rmult_le_pos; [assumption | apply Rlt_le, Rinv_0_lt_compat; assumption].
Qed.

(** X15: [add_tensorboard_summaries] records six summaries in the order
    loss, kl_loss, grads_norm, accuracy, Sigmas, snr and changes nothing
    else in the graph; [all_sigma] is the concatenation of the tensors of
    'all_sigma' in registration order, and every entry of [all_SNR] is
    non-negative when every registered scale is positive. *)
Theorem add_tensorboard_summaries_effect (loss kl_loss accuracy grads_norm : tensor R)
  (g : graph) :
  exists all_sigma all_SNR g',
    add_tensorboard_summaries loss kl_loss accuracy grads_norm g
      = (Ok (all_sigma, all_SNR), g') /\
    (forall s,
       all_sigma s = concat (map (fun v : tensor (list R) => v s) (coll_all_sigma g))) /\
    summaries g' =
      summaries g ++
      [summary_scalar "loss" loss (Some "summaries");
       summary_scalar "kl_loss" kl_loss (Some "summaries");
       summary_scalar "grads_norm" grads_norm (Some "summaries");
       summary_scalar "accuracy" accuracy (Some "summaries");
       summary_histogram "Sigmas" (Flat all_sigma) (Some "sigmas");
       summary_histogram "snr" (Flat all_SNR) (Some "SNR")] /\
    has_global_step g' = has_global_step g /\
    coll_all_sigma g' = coll_all_sigma g /\
    coll_random_mean g' = coll_random_mean g /\
    coll_restore_vars g' = coll_restore_vars g /\
    trainable g' = trainable g /\
    (forall s,
       (forall v, In v (coll_all_sigma g) -> Forall (fun x => 0 < x) (v s)) ->
       Forall (fun x => 0 <= x) (all_SNR s)).
Proof.
  unfold add_tensorboard_summaries.
  cbv beta iota zeta delta
    [bind ret tf_summary_scalar tf_summary_histogram add_summary
     tf_get_collection_all_sigma tf_get_collection_random_mean
     has_global_step coll_all_sigma coll_random_mean coll_restore_vars
     summaries trainable].
  eexists; eexists; eexists. split; [reflexivity |].
  cbn [has_global_step coll_all_sigma coll_random_mean coll_restore_vars
       summaries trainable].
  split; [intros s; reflexivity |].
  split; [rewrite <- !app_assoc; reflexivity |].
  do 5 (split; [reflexivity |]).
  intros s Hpos. unfold tf_concat_flat.
  apply Forall_concat. rewrite !Forall_map, Forall_forall.
  intros [mean sig] Hin. simpl.
  apply snr_of_nonneg, Hpos. apply in_combine_r in Hin. exact Hin.
Qed.

End ModelProperties.

(** ** Where the documented behaviour differs, on the example configuration *)

(** C2 as stated fails: with gradient (3, 4) and threshold 1 the gradients
    given to the training operation have global norm 1, and the scalar
    recorded as "grads_norm" is 5, the norm before clipping. *)
Lemma recorded_norm_is_raw_norm :
  exists m loc g',
    @Model__init__ example_backend example_conf 4 [8%nat] empty_graph
      = (Ok (m, loc), g') /\
    0 < clip_norm example_conf /\
    In (summary_scalar "grads_norm" (grads_norm loc) (Some "summaries"))
       (summaries g') /\
    tf_global_norm (op_grads (train_op m)) (at_step 0) = 1 /\
    grads_norm loc (at_step 0) = 5.
Proof.
  assert (Hraw : forall l v,
            tf_global_norm (@tf_gradients example_backend l v) (at_step 0) = 5).
  { intros l v. unfold tf_global_norm. simpl.
    replace (3 * 3 + (4 * 4 + 0) + 0) with (5 * 5) by lra.
    apply sqrt_square. lra. }
  constructed.
  2: { exfalso. apply Hnoclip. simpl. lra. }
  split; [simpl; lra |].
  split; [rewrite !in_app_iff; simpl; tauto |].
  split; [| apply Hraw].
  match goal with
  | |- context [@tf_gradients example_backend ?l ?v] =>
      destruct (clip_by_global_norm_spec (@tf_gradients example_backend l v)
                  (clip_norm example_conf) (at_step 0) Hclip)
        as (_ & _ & Hpost & _);
      rewrite Hraw in Hpost
  end.
  apply Hpost. simpl. lra.
Qed.

(** C3 as stated fails: with three scale tensors of one entry 1/2 and one of
    three entries 5/2 the total bits are 0 (the mean of the four means is
    1), while the mean of the six entries is 3/2, whose bits are negative. *)
Lemma total_bits_is_not_entry_mean :
  exists m loc g',
    @Model__init__ example_backend example_conf 4 [8%nat] empty_graph
      = (Ok (m, loc), g') /\
    map (fun v : tensor (list R) => v (at_step 0)) (sigma_collection loc)
      = [[1 / 2]; [1 / 2]; [1 / 2]; [5 / 2; 5 / 2; 5 / 2]] /\
    total_bits m (at_step 0) = 0 /\
    spec_total_bits [[1 / 2]; [1 / 2]; [1 / 2]; [5 / 2; 5 / 2; 5 / 2]] < 0.
Proof.
  pose proof ln_2_pos as Hln2.
  assert (Hspec : spec_total_bits [[1 / 2]; [1 / 2]; [1 / 2]; [5 / 2; 5 / 2; 5 / 2]] < 0).
  { unfold spec_total_bits.
    replace (tf_reduce_mean (concat [[1 / 2]; [1 / 2]; [1 / 2]; [5 / 2; 5 / 2; 5 / 2]]))
      with (3 / 2) by (unfold tf_reduce_mean; simpl; lra).
    assert (Hpos : 0 < ln (3 / 2)) by (rewrite <- ln_1; apply ln_increasing; lra).
    assert (Hinv : 0 < / ln 2) by (apply Rinv_0_lt_compat; exact Hln2).
    unfold Rdiv at 1. nra. }
  constructed.
  all: split; [reflexivity |].
  all: split; [| exact Hspec].
  all: rewrite total_bits_of_mean_of_means.
  all: match goal with
       | |- - ln ?x / _ = 0 =>
           replace x with 1 by (unfold tf_reduce_mean; simpl; lra)
       end.
  all: rewrite ln_1; field; lra.
Qed.

(** C7 as stated fails: with step budgets 500 and 7 the weight of the KL
    loss at step 0 is 1/1000 both times, the total loss is the same, and
    the weight is not the inverse of the budget. *)
Lemma kl_weight_is_not_over_max_steps :
  exists m loc loc' g',
    @Model__init__ example_backend example_conf 4 [8%nat] empty_graph
      = (Ok (m, loc), g') /\
    @Model__init__ example_backend (with_max_steps example_conf 7) 4 [8%nat] empty_graph
      = (Ok (m, loc'), g') /\
    max_steps example_conf = 500%Z /\
    pi loc (at_step 0) = 1 / 1000 /\
    pi loc' (at_step 0) = 1 / 1000 /\
    total_loss loc (at_step 0) = total_loss loc' (at_step 0) /\
    pi loc (at_step 0) < 1 / IZR (max_steps example_conf) /\
    pi loc' (at_step 0) < 1 / IZR (max_steps (with_max_steps example_conf 7)).
Proof.
  unfold Model__init__, add_CNN.
  cbn [with_max_steps example_conf sigma_prior max_steps clip_norm
       optimizer_name num_filters get_filter_shape].
  run_body.
  destruct (Rlt_dec 0 1) as [Hclip | Hnoclip]; [| exfalso; lra].
  eexists; eexists; eexists; eexists.
  split; [reflexivity |]. split; [reflexivity |]. split; [reflexivity |].
  cbn [pi total_loss]. simpl sess_global_step.
  rewrite !clip_below by lra.
  repeat split; lra.
Qed.

(** ** The extra properties on the example configuration *)

Lemma clipping_is_uniform_scaling_witness :
  0 < clip_norm example_conf /\
  exists m loc g',
    @Model__init__ example_backend example_conf 4 [8%nat] empty_graph
      = (Ok (m, loc), g') /\
    forall s,
      exists c,
        0 < c <= 1 /\
        run_all (op_grads (train_op m)) s
        = map (option_map (map (fun x => x * c))) (run_all (raw_grads loc) s).
Proof.
  assert (Hpos : 0 < clip_norm example_conf) by (simpl; lra).
  split; [exact Hpos |].
  exact (@clipping_is_uniform_scaling example_backend example_conf 4 [8%nat]
           empty_graph Hpos).
Defined.

Lemma add_RNN_layers_witness :
  @tf_static_rnn example_backend
    ([] ++ repeat (BayesianLSTMCell (hidden_dim example_conf) (MixturePrior 1) 1 true false)
             (num_layers example_conf))
    (@tf_unstack example_backend (tf_expand_dims (input_placeholder [8%nat]) 1) 2)
    <> [] /\
  exists g1,
    @add_RNN example_backend example_conf (input_placeholder [8%nat]) (MixturePrior 1)
      [] empty_graph
    = (Ok (last
             (@tf_static_rnn example_backend
                ([] ++ repeat (BayesianLSTMCell (hidden_dim example_conf)
                                 (MixturePrior 1) 1 true false)
                         (num_layers example_conf))
                (@tf_unstack example_backend
                   (tf_expand_dims (input_placeholder [8%nat]) 1) 2))
             (input_placeholder [8%nat]),
           [] ++ repeat (BayesianLSTMCell (hidden_dim example_conf)
                           (MixturePrior 1) 1 true false)
                   (num_layers example_conf)),
       g1).
Proof.
  assert (Hne : @tf_static_rnn example_backend
            ([] ++ repeat (BayesianLSTMCell (hidden_dim example_conf)
                             (MixturePrior 1) 1 true false)
                     (num_layers example_conf))
            (@tf_unstack example_backend
               (tf_expand_dims (input_placeholder [8%nat]) 1) 2)
          <> []) by (simpl; discriminate).
  split; [exact Hne |].
  destruct (@add_RNN_layers example_backend example_conf (input_placeholder [8%nat])
              (MixturePrior 1) [] empty_graph Hne) as (g1 & Hrun & _).
  exists g1. exact Hrun.
Defined.

(** On a batch of two samples with logits (1, 3) and (2, 0) and targets 1
    and 1 the first sample is a hit and the second is not: the accuracy is
    1/2. *)
Example accuracy_example :
  exists m loc g',
    @Model__init__ example_backend example_conf 2 [2%nat] empty_graph
      = (Ok (m, loc), g') /\
    bt_rows (logits loc) example_session = [[1; 3]; [2; 0]] /\
    accuracy m example_session = 1 / 2.
Proof.
  constructed.
  all: split; [reflexivity |].
  all: unfold tf_reduce_mean, tf_cast_bool, tf_equal, tf_argmax; simpl.
  all: repeat (destruct (Rlt_dec _ _); try lra).
  all: simpl; lra.
Qed.
